(** * App Store server API client (appstore/api/store.go)

    A shallow embedding of [StoreClient]: the authenticated transport [Do],
    the paginated [GetTransactionHistory], and the signed-payload pipeline
    [parseSignedTransaction] / [ParseSignedTransactions].

    Go's multiple return values are kept as tuples, a nilable pointer or
    [error] is an [option], a slice is an [option (list _)] so that the nil
    slice and the empty slice stay apart.  The receiver [a *StoreClient]
    lives in an explicit store ([World]) threaded by a small state monad,
    together with the wall clock and a ghost trace of the signing
    operations and HTTP requests performed so far. *)

From Stdlib Require Import ZArith String Ascii.
From stdpp Require Import base option list strings pretty gmap.

Local Open Scope string_scope.
Local Open Scope Z_scope.
Local Open Scope list_scope.

(** ** Go values *)

(** [[]byte] contents. *)
Definition bytes := list Byte.byte.

(** A Go slice: [None] is the nil slice, [Some l] a non-nil slice. *)
Definition slice (A : Type) : Type := option (list A).

(** [make([]T, 0)]. *)
Definition make_slice {A : Type} : slice A := Some [].

(** [append(s, x)]: appending to the nil slice allocates. *)
Definition append {A : Type} (s : slice A) (x : A) : slice A :=
  match s with
  | Some l => Some (l ++ [x])
  | None => Some [x]
  end.

(** The elements a [for _, v := range s] visits, in order. *)
Definition range {A : Type} (s : slice A) : list A := default [] s.

(** [len(s)]. *)
Definition len {A : Type} (s : slice A) : nat := length (range s).

(** Go [error] values.  [fmt_Errorf] is [fmt.Errorf] with a constant
    message, [fmt_Errorw] is [fmt.Errorf] with a [%w] verb wrapping [cause],
    [ErrStatusCode] is the
    ["appstore api: %v return status code %v"] error of the endpoints. *)
Inductive error : Type :=
| fmt_Errorf (msg : string)
| fmt_Errorw (msg : string) (cause : error)
| ErrStatusCode (URL : string) (statusCode : Z).

(** A fallible library call that yields a value or an error, never both. *)
Inductive Result (A : Type) : Type :=
| Ok (a : A)
| Err (e : error).
Arguments Ok {A} a.
Arguments Err {A} e.

(** ** Constants *)

Definition HostSandBox := "https://api.storekit-sandbox.itunes.apple.com".
Definition HostProduction := "https://api.storekit.itunes.apple.com".
Definition PathTransactionHistory := "/inApps/v1/history/{originalTransactionId}".

Definition http_MethodGet := "GET".
Definition http_StatusOK : Z := 200.

(** ** Keys and certificates *)

(** [ecdsa.PublicKey]. *)
Record ecdsa_PublicKey : Type := {
  Curve : string;
  X : Z;
  Y : Z
}.

(** The dynamic type of [x509.Certificate.PublicKey] (an [any] in Go). *)
Inductive crypto_PublicKey : Type :=
| PK_ecdsa (pk : ecdsa_PublicKey)
| PK_rsa (N E : Z)
| PK_ed25519 (key : bytes)
| PK_unknown.

(** The fields of [x509.Certificate] the client reads. *)
Record x509_Certificate : Type := {
  Raw : bytes;
  PublicKey : crypto_PublicKey
}.

(** The type assertion [key.( *ecdsa.PublicKey)]: the key and [ok]. *)
Definition as_ecdsa (key : crypto_PublicKey) : option ecdsa_PublicKey :=
  match key with
  | PK_ecdsa pk => Some pk
  | _ => None
  end.

(** [jwt.Token] as the key function sees it. *)
Record jwt_Token : Type := {
  jwt_Raw : string;
  jwt_alg : string
}.

(** [jwt.Keyfunc]. *)
Definition jwt_Keyfunc : Type := jwt_Token -> crypto_PublicKey * option error.

(** ** Token issuer state *)

(** [StoreConfig]. *)
Record StoreConfig : Type := {
  KeyContent : bytes;
  KeyID : string;
  BundleID : string;
  Issuer : string;
  Sandbox : bool
}.

(** Modelled from the spec: the header of a bearer token (the token type
    is declared in token.go, not among the sources). *)
Record TokenHeader : Type := {
  alg : string;
  kid : string;
  typ : string
}.

(** Modelled from the spec: the claims of a bearer token; instants are on
    the clock of the store. *)
Record TokenClaims : Type := {
  iss : string;
  iat : Z;
  exp : Z;
  aud : string;
  bid : string
}.

(** Modelled from the spec: the cached bearer token and its expiry
    instant. *)
Record CachedToken : Type := {
  Bearer : string;
  ExpiredAt : Z
}.

(** Modelled from the spec: [Token] (declared in token.go, not among the
    sources), the credentials given to [WithConfig] and the cache.  The
    client reads [a.Token.Sandbox], here [Sandbox (config _)]. *)
Record Token : Type := {
  config : StoreConfig;
  cached : option CachedToken
}.

(** Modelled from the spec: [Cert] (declared in cert.go, not among the
    sources), the pinned root certificates. *)
Record Cert : Type := {
  anchors : list bytes
}.

(** ** HTTP *)

(** [http.Request] after [http.NewRequest] and the header updates. *)
Record http_Request : Type := {
  Method : string;
  URL : string;
  Header : gmap string string;
  Body : option bytes
}.

(** Reading [resp.Body] with [io.ReadAll]. *)
Inductive BodyRead : Type :=
| ReadOk (b : bytes)
| ReadErr (e : error).

(** What [httpCli.Do] gives back. *)
Inductive http_Outcome : Type :=
| TransportErr (e : error)
| Response (StatusCode : Z) (body : BodyRead).

(** [http.Client]: its timeout and the behaviour of its transport, which
    answers the [n]-th request of this client (counted from 0). *)
Record http_Client : Type := {
  Timeout : Z;
  RoundTrip : nat -> http_Request -> http_Outcome
}.

(** [StoreClient]. *)
Record StoreClient : Type := {
  client_Token : Token;
  client_httpCli : http_Client;
  client_cert : Cert
}.

(** [url.Values]. *)
Abbreviation url_Values := (gmap string (list string)).

(** [url.Values.Set]. *)
Definition Values_Set (key value : string) (v : url_Values) : url_Values :=
  <[key := [value]]> v.

(** ** Collaborators

    Code the client calls but that is not part of store.go: the Go standard
    library, the jwt library, and the methods of [Cert] kept in another
    file of the package.  They are taken as an interface.  The methods of
    [Cert] read their receiver and arguments and write nothing: the chain
    verifier holds no mutable state. *)
Class Collaborators : Type := {
  (** [JWSTransaction] and its zero value [JWSTransaction{}]. *)
  JWSTransaction : Type;
  JWSTransaction_zero : JWSTransaction;
  (** [HistoryResponse], the zero value and the two fields read here. *)
  HistoryResponse : Type;
  HistoryResponse_zero : HistoryResponse;
  HasMore : HistoryResponse -> bool;
  Revision : HistoryResponse -> string;
  (** [Cert.extractCertByIndex(tokenStr, index)]. *)
  extractCertByIndex : Cert -> string -> Z -> Result bytes;
  (** [Cert.verifyCert(rootCert, intermediaCert, leafCert)]. *)
  verifyCert : Cert -> x509_Certificate -> x509_Certificate -> x509_Certificate -> option error;
  (** [x509.ParseCertificate]. *)
  x509_ParseCertificate : bytes -> Result x509_Certificate;
  (** [jwt.ParseWithClaims(tokenString, claims, keyFunc)]: the claims
      object after the call, and the error. *)
  jwt_ParseWithClaims : string -> JWSTransaction -> jwt_Keyfunc -> JWSTransaction * option error;
  (** [json.Unmarshal(body, &rsp)]: [rsp] after the call, and the error. *)
  json_Unmarshal : bytes -> HistoryResponse -> HistoryResponse * option error;
  (** [http.NewRequest(method, url, body)]. *)
  http_NewRequest : string -> string -> option bytes -> Result http_Request;
  (** [url.Values.Encode]. *)
  Values_Encode : url_Values -> string;
  (** Signing of a bearer token with the key parsed from [KeyContent]. *)
  signToken : bytes -> TokenHeader -> TokenClaims -> Result string;
  (** Safety margin and lifetime of a bearer token, and its audience. *)
  safetyMargin : Z;
  tokenLifetime : Z;
  tokenAudience : string
}.

(** ** The store and its monad *)

(** Ghost events: a signing operation, an HTTP request handed to the
    transport. *)
Inductive Event : Type :=
| EvSign (h : TokenHeader) (c : TokenClaims)
| EvRequest (r : http_Request).

(** The store: the client behind the receiver pointer, the wall clock in
    milliseconds, the events so far (oldest first). *)
Record World : Type := {
  client : StoreClient;
  now : Z;
  trace : list Event
}.

Definition M (A : Type) : Type := World -> A * World.

#[global] Instance M_ret : MRet M := fun A a w => (a, w).
#[global] Instance M_bind : MBind M :=
  fun A B k m w => let '(a, w') := m w in k a w'.

(** Read the store. *)
Definition get_world : M World := fun w => (w, w).

(** The receiver [a]. *)
Definition get_client : M StoreClient := fun w => (client w, w).

(** [time.Now()]. *)
Definition time_Now : M Z := fun w => (now w, w).

(** [time.Sleep(d)]. *)
Definition time_Sleep (d : Z) : M unit :=
  fun w => (tt, {| client := client w; now := now w + d; trace := trace w |}).

(** Record a ghost event. *)
Definition emit (e : Event) : M unit :=
  fun w => (tt, {| client := client w; now := now w; trace := trace w ++ [e] |}).

(** Assignment to [a.Token]. *)
Definition set_Token (t : Token) : M unit :=
  fun w => (tt, {| client := {| client_Token := t;
                                client_httpCli := client_httpCli (client w);
                                client_cert := client_cert (client w) |};
                   now := now w; trace := trace w |}).

(** The requests among the events. *)
Definition requests (tr : list Event) : list http_Request :=
  omap (fun e => match e with EvRequest r => Some r | _ => None end) tr.

(** The signing operations among the events. *)
Definition signings (tr : list Event) : list (TokenHeader * TokenClaims) :=
  omap (fun e => match e with EvSign h c => Some (h, c) | _ => None end) tr.

(** The store after the issuer signed claims [c] under header [h]. *)
Definition after_sign (w : World) (h : TokenHeader) (c : TokenClaims) : World :=
  {| client := client w; now := now w; trace := trace w ++ [EvSign h c] |}.

(** The store after [bearer], expiring at [e], replaced the cache. *)
Definition after_issue (w : World) (bearer : string) (e : Z) : World :=
  {| client := {| client_Token :=
                    {| config := config (client_Token (client w));
                       cached := Some {| Bearer := bearer; ExpiredAt := e |} |};
                  client_httpCli := client_httpCli (client w);
                  client_cert := client_cert (client w) |};
     now := now w; trace := trace w |}.

(** What the token issuer leaves alone: the transport, the pinned roots,
    the configuration, the clock, and the requests of the trace. *)
Definition issuer_frame (w w' : World) : Prop :=
  client_httpCli (client w') = client_httpCli (client w) ∧
  client_cert (client w') = client_cert (client w) ∧
  config (client_Token (client w')) = config (client_Token (client w)) ∧
  now w' = now w ∧
  requests (trace w') = requests (trace w).

(** ** Strings and loops *)

(** [strings.Replace(s, old, new, -1)] for a non-empty [old]: every
    non-overlapping occurrence, left to right.  [skip] counts the
    characters of a matched occurrence still to be dropped. *)
Fixpoint strings_Replace_go (old new : string) (skip : nat) (s : string) : string :=
  match s with
  | EmptyString => EmptyString
  | String c s' =>
    match skip with
    | S k => strings_Replace_go old new k s'
    | O =>
      if String.prefix old s
      then new +:+ strings_Replace_go old new (Nat.pred (String.length old)) s'
      else String c (strings_Replace_go old new O s')
    end
  end.

Definition strings_Replace (s old new : string) : string :=
  strings_Replace_go old new O s.

(** A loop that ran to its [return], is still running when the fuel is
    spent, or stopped in a run-time panic. *)
Inductive Run (A : Type) : Type :=
| Returned (a : A)
| OutOfFuel
| Panicked (msg : string).
Arguments Returned {A} a.
Arguments OutOfFuel {A}.
Arguments Panicked {A} msg.

Section Client.
Context `{Collaborators}.

(** ** Signed payloads *)

(** [parseSignedTransaction]. *)
Definition parseSignedTransaction (transaction : string)
  : M (option JWSTransaction * option error) :=
  a ← get_client;
  let tran := JWSTransaction_zero in
  match extractCertByIndex (client_cert a) transaction 2 with
  | Err err => mret (None, Some err)
  | Ok rootCertBytes =>
  match x509_ParseCertificate rootCertBytes with
  | Err _ => mret (None, Some (fmt_Errorf "appstore failed to parse root certificate"))
  | Ok rootCert =>
  match extractCertByIndex (client_cert a) transaction 1 with
  | Err err => mret (None, Some err)
  | Ok intermediaCertBytes =>
  match x509_ParseCertificate intermediaCertBytes with
  | Err _ => mret (None, Some (fmt_Errorf "appstore failed to parse intermediate certificate"))
  | Ok intermediaCert =>
  match extractCertByIndex (client_cert a) transaction 0 with
  | Err err => mret (None, Some err)
  | Ok leafCertBytes =>
  match x509_ParseCertificate leafCertBytes with
  | Err _ => mret (None, Some (fmt_Errorf "appstore failed to parse leaf certificate"))
  | Ok leafCert =>
  match verifyCert (client_cert a) rootCert intermediaCert leafCert with
  | Some err => mret (None, Some err)
  | None =>
  match as_ecdsa (PublicKey leafCert) with
  | None => mret (None, Some (fmt_Errorf "appstore public key must be of type ecdsa.PublicKey"))
  | Some pk =>
  match jwt_ParseWithClaims transaction tran (fun token => (PK_ecdsa pk, None)) with
  | (_, Some err) => mret (None, Some err)
  | (tran', None) => mret (Some tran', None)
  end end end end end end end end end.

(** The body of the [for _, v := range transactions] loop of
    [ParseSignedTransactions], run over the remaining entries. *)
Fixpoint ParseSignedTransactions_loop (vs : list string) (result : slice JWSTransaction)
  : M (slice JWSTransaction) :=
  match vs with
  | [] => mret result
  | v :: vs' =>
    '(trans, err) ← parseSignedTransaction v;
    match err, trans with
    | None, Some t => ParseSignedTransactions_loop vs' (append result t)
    | _, _ => ParseSignedTransactions_loop vs' result
    end
  end.

(** [ParseSignedTransactions]. *)
Definition ParseSignedTransactions (transactions : slice string)
  : M (slice JWSTransaction * option error) :=
  result ← ParseSignedTransactions_loop (range transactions) make_slice;
  mret (result, None).

(** ** Bearer tokens *)

(** Modelled from the spec: the header of the bearer token issued for a
    configuration (token.go is not among the sources). *)
Definition tokenHeader (cfg : StoreConfig) : TokenHeader :=
  {| alg := "ES256"; kid := KeyID cfg; typ := "JWT" |}.

(** Modelled from the spec: the claims of the bearer token issued for a
    configuration at instant [t] (token.go is not among the sources). *)
Definition tokenClaims (cfg : StoreConfig) (t : Z) : TokenClaims :=
  {| iss := Issuer cfg; iat := t; exp := t + tokenLifetime;
     aud := tokenAudience; bid := BundleID cfg |}.

(** Modelled from the spec: the cached token may still be handed out at
    instant [t], its expiry minus the safety margin is in the future
    (token.go is not among the sources). *)
Definition fresh (c : CachedToken) (t : Z) : bool :=
  t <? ExpiredAt c - safetyMargin.

(** Modelled from the spec: [Token.Generate], the signing branch of the
    token issuer (token.go is not among the sources).  It builds header and
    claims, signs them, and replaces the cache wholesale; a signing failure
    leaves the cache as it was and yields no token. *)
Definition Generate : M (string * option error) :=
  a ← get_client;
  t ← time_Now;
  let tok := client_Token a in
  let h := tokenHeader (config tok) in
  let c := tokenClaims (config tok) t in
  emit (EvSign h c);;
  match signToken (KeyContent (config tok)) h c with
  | Err err => mret ("", Some err)
  | Ok bearer =>
    set_Token {| config := config tok;
                 cached := Some {| Bearer := bearer; ExpiredAt := exp c |} |};;
    mret (bearer, None)
  end.

(** Modelled from the spec: [Token.GenerateIfExpired], the [currentToken]
    operation of the token issuer (token.go is not among the sources).  A
    cached token that is still fresh is returned as it is, with no signing
    operation; otherwise a new one is generated and returned. *)
Definition GenerateIfExpired : M (string * option error) :=
  a ← get_client;
  t ← time_Now;
  match cached (client_Token a) with
  | Some c => if fresh c t then mret (Bearer c, None) else Generate
  | None => Generate
  end.

(** ** Authenticated transport *)

(** [req.Header.Set(key, value)]; the three keys used by [Do] are already
    in canonical form. *)
Definition Header_Set (key value : string) (req : http_Request) : http_Request :=
  {| Method := Method req; URL := URL req;
     Header := <[key := value]> (Header req); Body := Body req |}.

(** [Do].  The context argument only carries cancellation to the
    transport, whose behaviour is [RoundTrip]. *)
Definition Do (method url : string) (body : option bytes)
  : M (Z * slice Byte.byte * option error) :=
  '(authToken, err) ← GenerateIfExpired;
  match err with
  | Some err => mret (0, None, Some (fmt_Errorw "appstore generate token err" err))
  | None =>
    match http_NewRequest method url body with
    | Err err => mret (0, None, Some (fmt_Errorw "appstore new http request err" err))
    | Ok req =>
      let req := Header_Set "Content-Type" "application/json" req in
      let req := Header_Set "Authorization" ("Bearer " +:+ authToken) req in
      let req := Header_Set "User-Agent" "App Store Client" req in
      a ← get_client;
      w ← get_world;
      emit (EvRequest req);;
      match RoundTrip (client_httpCli a) (length (requests (trace w))) req with
      | TransportErr err =>
        mret (0, None, Some (fmt_Errorw "appstore http client do err" err))
      | Response StatusCode (ReadErr err) =>
        mret (StatusCode, None, Some (fmt_Errorw "appstore read http body err" err))
      | Response StatusCode (ReadOk b) =>
        mret (StatusCode, Some b, None)
      end
    end
  end.

(** ** Transaction history *)

(** The [for] loop of [GetTransactionHistory], at most [fuel] iterations.
    [query] is the map behind the pointer, [None] for the nil map:
    [Encode] reads a nil map as an empty one, [Set] on it panics. *)
Fixpoint GetTransactionHistory_loop (fuel : nat) (URL : string)
    (query : option url_Values) (responses : slice HistoryResponse)
  : M (Run (slice HistoryResponse * option error)) :=
  match fuel with
  | O => mret OutOfFuel
  | S fuel' =>
    let rsp := HistoryResponse_zero in
    '(statusCode, body, errOmit) ←
      Do http_MethodGet (URL +:+ "?" +:+ Values_Encode (default ∅ query)) None;
    match errOmit with
    | Some errOmit => mret (Returned (None, Some errOmit))
    | None =>
      if negb (statusCode =? http_StatusOK)
      then mret (Returned (None, Some (ErrStatusCode URL statusCode)))
      else
        let '(rsp, err) := json_Unmarshal (range body) rsp in
        match err with
        | Some err => mret (Returned (None, Some err))
        | None =>
          let responses := append responses rsp in
          if negb (HasMore rsp) then mret (Returned (responses, None))
          else
            if HasMore rsp && negb (String.eqb (Revision rsp) "")
            then
              match query with
              | None => mret (Panicked "assignment to entry in nil map")
              | Some values =>
                time_Sleep 10;;
                GetTransactionHistory_loop fuel' URL
                  (Some (Values_Set "revision" (Revision rsp) values)) responses
              end
            else
              time_Sleep 10;;
              GetTransactionHistory_loop fuel' URL query responses
        end
    end
  end.

(** [GetTransactionHistory]; [query] is the nil pointer ([None]) or points
    to the caller's values, which may be the nil map ([Some None]).  Only
    the nil pointer is replaced by a fresh map. *)
Definition GetTransactionHistory (fuel : nat) (originalTransactionId : string)
    (query : option (option url_Values))
  : M (Run (slice HistoryResponse * option error)) :=
  a ← get_client;
  let URL := HostProduction +:+ PathTransactionHistory in
  let URL := if Sandbox (config (client_Token a))
             then HostSandBox +:+ PathTransactionHistory else URL in
  let URL := strings_Replace URL "{originalTransactionId}" originalTransactionId in
  let query := match query with
               | None => Some ∅
               | Some values => values
               end in
  GetTransactionHistory_loop fuel URL query None.

(** ** Vocabulary of the specification *)

(** The certificate chain of a payload: the ordered triple
    leaf, intermediate, root. *)
Record CertificateChain : Type := {
  leaf : x509_Certificate;
  intermediate : x509_Certificate;
  root : x509_Certificate
}.

(** [chain] is what the payload embeds, read leaf-first: entry 0 parses to
    the leaf, entry 1 to the intermediate, entry 2 to the root. *)
Definition EmbeddedChain (c : Cert) (transaction : string) (chain : CertificateChain) : Prop :=
  ∃ leafCertBytes intermediaCertBytes rootCertBytes,
    extractCertByIndex c transaction 0 = Ok leafCertBytes ∧
    x509_ParseCertificate leafCertBytes = Ok (leaf chain) ∧
    extractCertByIndex c transaction 1 = Ok intermediaCertBytes ∧
    x509_ParseCertificate intermediaCertBytes = Ok (intermediate chain) ∧
    extractCertByIndex c transaction 2 = Ok rootCertBytes ∧
    x509_ParseCertificate rootCertBytes = Ok (root chain).

(** Chain validation of the payload succeeds, and [leafCert] is its leaf. *)
Definition ChainValid (c : Cert) (transaction : string) (leafCert : x509_Certificate) : Prop :=
  ∃ chain,
    EmbeddedChain c transaction chain ∧ leaf chain = leafCert ∧
    verifyCert c (root chain) (intermediate chain) (leaf chain) = None.

(** The signature of the payload verifies against [pk], and its claims
    decode to [tran]. *)
Definition SignatureValid (transaction : string) (pk : ecdsa_PublicKey)
    (tran : JWSTransaction) : Prop :=
  jwt_ParseWithClaims transaction JWSTransaction_zero (fun _ => (PK_ecdsa pk, None))
  = (tran, None).

(** The claims [parseSignedTransaction] hands over for one payload, if it
    accepts it. *)
Definition decoded (w : World) (v : string) : option JWSTransaction :=
  match fst (parseSignedTransaction v w) with
  | (Some trans, None) => Some trans
  | _ => None
  end.

(** The token string determines the expiry it was signed with. *)
Definition ExpiryBound : Prop :=
  ∀ key h c1 c2 s,
    signToken key h c1 = Ok s → signToken key h c2 = Ok s → exp c1 = exp c2.

(** The cached token is one the issuer signed, for the cached expiry. *)
Definition Issued (tok : Token) : Prop :=
  ∀ c, cached tok = Some c →
    ∃ t, signToken (KeyContent (config tok)) (tokenHeader (config tok))
           (tokenClaims (config tok) t) = Ok (Bearer c) ∧
         exp (tokenClaims (config tok) t) = ExpiredAt c.

(** Signing with the key of [cfg] never fails. *)
Definition AlwaysSigns (cfg : StoreConfig) : Prop :=
  ∀ h c, ∃ s, signToken (KeyContent cfg) h c = Ok s.

(** The [n]-th answer of the transport is a 200 whose body decodes to
    [rsp], whatever the request. *)
Definition Serves (cli : http_Client) (n : nat) (rsp : HistoryResponse) : Prop :=
  ∀ req, ∃ b,
    RoundTrip cli n req = Response http_StatusOK (ReadOk b) ∧
    json_Unmarshal b HistoryResponse_zero = (rsp, None).

(** The URL of the history endpoint for one transaction. *)
Definition historyURL (sandbox : bool) (originalTransactionId : string) : string :=
  strings_Replace
    (if sandbox then HostSandBox +:+ PathTransactionHistory
     else HostProduction +:+ PathTransactionHistory)
    "{originalTransactionId}" originalTransactionId.

End Client.

(** ** A concrete instance

    A small world in which everything computes: three certificates known
    by one-byte encodings, a verifier that pins the root, a signature check
    that rejects payloads marked as tampered, a scripted HTTP transport and
    a signer whose token is the decimal expiry. *)
Module Demo.

#[global] Instance byte_eq_dec : EqDecision Byte.byte := Byte.byte_eq_dec.

Definition leafKey : ecdsa_PublicKey := {| Curve := "P-256"; X := 7; Y := 11 |}.
Definition interKey : ecdsa_PublicKey := {| Curve := "P-384"; X := 13; Y := 17 |}.
Definition rootKey : ecdsa_PublicKey := {| Curve := "P-384"; X := 19; Y := 23 |}.

Definition leafDER : bytes := [Byte.x00].
Definition interDER : bytes := [Byte.x01].
Definition rootDER : bytes := [Byte.x02].
Definition rsaLeafDER : bytes := [Byte.x03].
Definition rogueRootDER : bytes := [Byte.x04].

Definition extract (c : Cert) (tokenStr : string) (index : Z) : Result bytes :=
  if String.eqb tokenStr "no-chain" then Err (fmt_Errorf "x5c header is missing")
  else match index with
       | 0 => Ok (if String.eqb tokenStr "rsa-leaf" then rsaLeafDER else leafDER)
       | 1 => Ok interDER
       | 2 => Ok (if String.eqb tokenStr "rogue-root" then rogueRootDER else rootDER)
       | _ => Err (fmt_Errorf "x5c index out of range")
       end.

Definition parseCertificate (der : bytes) : Result x509_Certificate :=
  match der with
  | [Byte.x00] => Ok {| Raw := der; PublicKey := PK_ecdsa leafKey |}
  | [Byte.x01] => Ok {| Raw := der; PublicKey := PK_ecdsa interKey |}
  | [Byte.x02] => Ok {| Raw := der; PublicKey := PK_ecdsa rootKey |}
  | [Byte.x03] => Ok {| Raw := der; PublicKey := PK_rsa 3233 17 |}
  | [Byte.x04] => Ok {| Raw := der; PublicKey := PK_ecdsa rootKey |}
  | _ => Err (fmt_Errorf "x509: malformed certificate")
  end.

Definition verify (c : Cert) (rootCert intermediaCert leafCert : x509_Certificate)
  : option error :=
  if bool_decide (Raw rootCert ∈ anchors c) then None
  else Some (fmt_Errorf "root certificate is not trusted").

Definition parseWithClaims (tokenString : string) (claims : string) (keyFunc : jwt_Keyfunc)
  : string * option error :=
  match keyFunc {| jwt_Raw := tokenString; jwt_alg := "ES256" |} with
  | (_, Some err) => (claims, Some err)
  | (PK_ecdsa pk, None) =>
    if String.prefix "tampered" tokenString || negb ((X pk =? X leafKey) && (Y pk =? Y leafKey))
    then (claims, Some (fmt_Errorf "crypto/ecdsa: verification error"))
    else ("claims of " +:+ tokenString, None)
  | (_, None) => (claims, Some (fmt_Errorf "key is of invalid type"))
  end.

Record Page : Type := { more : bool; rev : string }.

Definition unmarshal (body : bytes) (rsp : Page) : Page * option error :=
  match body with
  | [Byte.x00] => ({| more := false; rev := "" |}, None)
  | [Byte.x01] => ({| more := true; rev := "r1" |}, None)
  | [Byte.x02] => ({| more := true; rev := "" |}, None)
  | _ => (rsp, Some (fmt_Errorf "unexpected end of JSON input"))
  end.

Definition newRequest (method url : string) (body : option bytes) : Result http_Request :=
  Ok {| Method := method; URL := url; Header := ∅; Body := body |}.

Definition encode (v : url_Values) : string :=
  match v !! "revision" with
  | Some (r :: _) => "revision=" +:+ r
  | _ => ""
  end.

Definition sign (key : bytes) (h : TokenHeader) (c : TokenClaims) : Result string :=
  match key with
  | [] => Err (fmt_Errorf "key is not PEM encoded")
  | _ => Ok (pretty (exp c))
  end.

#[global] Instance collaborators : Collaborators := {|
  JWSTransaction := string;
  JWSTransaction_zero := "";
  HistoryResponse := Page;
  HistoryResponse_zero := {| more := false; rev := "" |};
  HasMore := more;
  Revision := rev;
  extractCertByIndex := extract;
  verifyCert := verify;
  x509_ParseCertificate := parseCertificate;
  jwt_ParseWithClaims := parseWithClaims;
  json_Unmarshal := unmarshal;
  http_NewRequest := newRequest;
  Values_Encode := encode;
  signToken := sign;
  safetyMargin := 60000;
  tokenLifetime := 1200000;
  tokenAudience := "appstoreconnect-v1"
|}.

Definition storeConfig : StoreConfig := {|
  KeyContent := [Byte.x2d; Byte.x2d];
  KeyID := "2X9R4HXF34";
  BundleID := "com.example.app";
  Issuer := "57246542-96fe-1a63-e053-0824d011072a";
  Sandbox := false
|}.

(** Two pages that announce more, then a last one. *)
Definition threePages : http_Client := {|
  Timeout := 30000;
  RoundTrip := fun n _ =>
    match n with
    | O => Response 200 (ReadOk [Byte.x01])
    | S O => Response 200 (ReadOk [Byte.x02])
    | _ => Response 200 (ReadOk [Byte.x00])
    end
|}.

(** Every page announces more and carries no revision. *)
Definition endless : http_Client := {|
  Timeout := 30000;
  RoundTrip := fun _ _ => Response 200 (ReadOk [Byte.x02])
|}.

Definition storeClient (cli : http_Client) (c : option CachedToken) : StoreClient := {|
  client_Token := {| config := storeConfig; cached := c |};
  client_httpCli := cli;
  client_cert := {| anchors := [rootDER] |}
|}.

(** A client that has not issued a token yet, at instant 1000000. *)
Definition w0 : World :=
  {| client := storeClient threePages None; now := 1000000; trace := [] |}.

(** The token issued at instant 1000000. *)
Definition firstToken : CachedToken :=
  {| Bearer := "2200000"; ExpiredAt := 2200000 |}.

(** A client holding [firstToken], at instant [t]. *)
Definition wCached (cli : http_Client) (t : Z) : World :=
  {| client := storeClient cli (Some firstToken); now := t; trace := [] |}.

End Demo.

(** * The other endpoints *)

Definition PathLookUp := "/inApps/v1/lookup/{orderId}".
Definition PathRefundHistory := "/inApps/v2/refund/lookup/{originalTransactionId}".
Definition PathGetALLSubscriptionStatus := "/inApps/v1/subscriptions/{originalTransactionId}".
Definition PathConsumptionInfo := "/inApps/v1/transactions/consumption/{originalTransactionId}".
Definition PathExtendSubscriptionRenewalDate := "/inApps/v1/subscriptions/extend/{originalTransactionId}".
Definition PathRequestTestNotification := "/inApps/v1/notifications/test".
Definition PathGetTestNotificationStatus := "/inApps/v1/notifications/test/{testNotificationToken}".

Definition http_MethodPut := "PUT".
Definition http_MethodPost := "POST".

(** The request and response types of the other endpoints, declared in
    another file of the package, and their JSON coding by the Go standard
    library.  Decoding into a nil [*T] gives the pointer after the call;
    encoding gives the bytes written to the buffer. *)
Class Endpoints : Type := {
  StatusResponse : Type;
  OrderLookupResponse : Type;
  (** [RefundLookupResponse], the zero value and the two fields read here. *)
  RefundLookupResponse : Type;
  RefundLookupResponse_zero : RefundLookupResponse;
  Refund_HasMore : RefundLookupResponse -> bool;
  Refund_Revision : RefundLookupResponse -> string;
  ConsumptionRequestBody : Type;
  ExtendRenewalDateRequest : Type;
  (** [json.Unmarshal(body, &rsp)] for [rsp *StatusResponse]. *)
  json_Unmarshal_StatusResponse :
    bytes -> option StatusResponse -> option StatusResponse * option error;
  (** [json.Unmarshal(body, &rsp)] for [rsp *OrderLookupResponse]. *)
  json_Unmarshal_OrderLookupResponse :
    bytes -> option OrderLookupResponse -> option OrderLookupResponse * option error;
  (** [json.Unmarshal(body, &rsp)] for [rsp RefundLookupResponse]. *)
  json_Unmarshal_RefundLookupResponse :
    bytes -> RefundLookupResponse -> RefundLookupResponse * option error;
  (** [json.NewEncoder(bodyBuf).Encode(body)]. *)
  json_Encode_ConsumptionRequestBody : ConsumptionRequestBody -> Result bytes;
  json_Encode_ExtendRenewalDateRequest : ExtendRenewalDateRequest -> Result bytes
}.

Section Endpoints.
Context `{Collaborators} `{Endpoints}.

(** [GetALLSubscriptionStatuses]. *)
Definition GetALLSubscriptionStatuses (originalTransactionId : string)
  : M (option StatusResponse * option error) :=
  a ← get_client;
  let URL := HostProduction +:+ PathGetALLSubscriptionStatus in
  let URL := if Sandbox (config (client_Token a))
             then HostSandBox +:+ PathGetALLSubscriptionStatus else URL in
  let URL := strings_Replace URL "{originalTransactionId}" originalTransactionId in
  '(statusCode, body, err) ← Do http_MethodGet URL None;
  match err with
  | Some err => mret (None, Some err)
  | None =>
    if negb (statusCode =? http_StatusOK)
    then mret (None, Some (ErrStatusCode URL statusCode))
    else
      let '(rsp, err) := json_Unmarshal_StatusResponse (range body) None in
      match err with
      | Some err => mret (None, Some err)
      | None => mret (rsp, None)
      end
  end.

(** [LookupOrderID]. *)
Definition LookupOrderID (orderId : string)
  : M (option OrderLookupResponse * option error) :=
  a ← get_client;
  let URL := HostProduction +:+ PathLookUp in
  let URL := if Sandbox (config (client_Token a))
             then HostSandBox +:+ PathLookUp else URL in
  let URL := strings_Replace URL "{orderId}" orderId in
  '(statusCode, body, err) ← Do http_MethodGet URL None;
  match err with
  | Some err => mret (None, Some err)
  | None =>
    if negb (statusCode =? http_StatusOK)
    then mret (None, Some (ErrStatusCode URL statusCode))
    else
      let '(rsp, err) := json_Unmarshal_OrderLookupResponse (range body) None in
      match err with
      | Some err => mret (None, Some err)
      | None => mret (rsp, None)
      end
  end.

(** The [for] loop of [GetRefundHistory], at most [fuel] iterations. *)
Fixpoint GetRefundHistory_loop (fuel : nat) (baseURL URL : string)
    (responses : slice RefundLookupResponse)
  : M (Run (slice RefundLookupResponse * option error)) :=
  match fuel with
  | O => mret OutOfFuel
  | S fuel' =>
    let rsp := RefundLookupResponse_zero in
    '(statusCode, body, errOmit) ← Do http_MethodGet URL None;
    match errOmit with
    | Some errOmit => mret (Returned (None, Some errOmit))
    | None =>
      if negb (statusCode =? http_StatusOK)
      then mret (Returned (None, Some (ErrStatusCode URL statusCode)))
      else
        let '(rsp, err) := json_Unmarshal_RefundLookupResponse (range body) rsp in
        match err with
        | Some err => mret (Returned (None, Some err))
        | None =>
          let responses := append responses rsp in
          if negb (Refund_HasMore rsp) then mret (Returned (responses, None))
          else
            let data : url_Values := ∅ in
            let URL :=
              if Refund_HasMore rsp && negb (String.eqb (Refund_Revision rsp) "")
              then baseURL +:+ "?" +:+
                   Values_Encode (Values_Set "revision" (Refund_Revision rsp) data)
              else URL in
            time_Sleep 10;;
            GetRefundHistory_loop fuel' baseURL URL responses
        end
    end
  end.

(** [GetRefundHistory]. *)
Definition GetRefundHistory (fuel : nat) (originalTransactionId : string)
  : M (Run (slice RefundLookupResponse * option error)) :=
  a ← get_client;
  let baseURL := HostProduction +:+ PathRefundHistory in
  let baseURL := if Sandbox (config (client_Token a))
                 then HostSandBox +:+ PathRefundHistory else baseURL in
  let baseURL := strings_Replace baseURL "{originalTransactionId}" originalTransactionId in
  let URL := baseURL in
  GetRefundHistory_loop fuel baseURL URL None.

(** [SendConsumptionInfo]. *)
Definition SendConsumptionInfo (originalTransactionId : string)
    (body : ConsumptionRequestBody)
  : M (Z * option error) :=
  a ← get_client;
  let URL := HostProduction +:+ PathConsumptionInfo in
  let URL := if Sandbox (config (client_Token a))
             then HostSandBox +:+ PathConsumptionInfo else URL in
  let URL := strings_Replace URL "{originalTransactionId}" originalTransactionId in
  match json_Encode_ConsumptionRequestBody body with
  | Err err => mret (0, Some err)
  | Ok bodyBuf =>
    '(statusCode, _, err) ← Do http_MethodPut URL (Some bodyBuf);
    match err with
    | Some err => mret (statusCode, Some err)
    | None => mret (statusCode, None)
    end
  end.

(** [ExtendSubscriptionRenewalDate]. *)
Definition ExtendSubscriptionRenewalDate (originalTransactionId : string)
    (body : ExtendRenewalDateRequest)
  : M (Z * option error) :=
  a ← get_client;
  let URL := HostProduction +:+ PathExtendSubscriptionRenewalDate in
  let URL := if Sandbox (config (client_Token a))
             then HostSandBox +:+ PathExtendSubscriptionRenewalDate else URL in
  let URL := strings_Replace URL "{originalTransactionId}" originalTransactionId in
  match json_Encode_ExtendRenewalDateRequest body with
  | Err err => mret (0, Some err)
  | Ok bodyBuf =>
    '(statusCode, _, err) ← Do http_MethodPut URL (Some bodyBuf);
    match err with
    | Some err => mret (statusCode, Some err)
    | None => mret (statusCode, None)
    end
  end.

(** [SendRequestTestNotification]. *)
Definition SendRequestTestNotification : M (Z * slice Byte.byte * option error) :=
  a ← get_client;
  let URL := HostProduction +:+ PathRequestTestNotification in
  let URL := if Sandbox (config (client_Token a))
             then HostSandBox +:+ PathRequestTestNotification else URL in
  Do http_MethodPost URL None.

(** [GetTestNotificationStatus]. *)
Definition GetTestNotificationStatus (testNotificationToken : string)
  : M (Z * slice Byte.byte * option error) :=
  a ← get_client;
  let URL := HostProduction +:+ PathGetTestNotificationStatus in
  let URL := if Sandbox (config (client_Token a))
             then HostSandBox +:+ PathGetTestNotificationStatus else URL in
  let URL := strings_Replace URL "{testNotificationToken}" testNotificationToken in
  Do http_MethodGet URL None.

(** ** Vocabulary for the endpoints *)

(** The host the client talks to. *)
Definition host (w : World) : string :=
  if Sandbox (config (client_Token (client w))) then HostSandBox else HostProduction.

(** The request [Do] hands to the transport, from the one
    [http.NewRequest] built and the bearer token. *)
Definition authorize (authToken : string) (req : http_Request) : http_Request :=
  Header_Set "User-Agent" "App Store Client"
    (Header_Set "Authorization" ("Bearer " +:+ authToken)
       (Header_Set "Content-Type" "application/json" req)).

(** What [Do] returns for an answer of the transport. *)
Definition Do_result (o : http_Outcome) : Z * slice Byte.byte * option error :=
  match o with
  | TransportErr err => (0, None, Some (fmt_Errorw "appstore http client do err" err))
  | Response StatusCode (ReadErr err) =>
    (StatusCode, None, Some (fmt_Errorw "appstore read http body err" err))
  | Response StatusCode (ReadOk b) => (StatusCode, Some b, None)
  end.

(** The store after [req] was handed to the transport. *)
Definition after_request (w : World) (req : http_Request) : World :=
  {| client := client w; now := now w; trace := trace w ++ [EvRequest req] |}.

(** The request carries a bearer token. *)
Definition Authenticated (req : http_Request) : Prop :=
  ∃ authToken, Header req !! "Authorization" = Some ("Bearer " +:+ authToken).

(** [req] is what [Do] sends for these arguments: the request
    [http.NewRequest] builds from them, with the three headers set. *)
Definition BuiltFrom (method url : string) (body : option bytes)
    (req : http_Request) : Prop :=
  ∃ authToken req0,
    http_NewRequest method url body = Ok req0 ∧ req = authorize authToken req0.

(** The map [GetTransactionHistory] works on: a fresh one for the nil
    pointer, otherwise what the pointer holds, the nil map included. *)
Definition query_map (query : option (option url_Values)) : option url_Values :=
  match query with
  | None => Some ∅
  | Some values => values
  end.

(** The query of [GetTransactionHistory] after a page. *)
Definition next_query (rsp : HistoryResponse) (query : url_Values) : url_Values :=
  if HasMore rsp && negb (String.eqb (Revision rsp) "")
  then Values_Set "revision" (Revision rsp) query
  else query.

(** The query of [GetTransactionHistory] after a run of pages. *)
Definition query_after (pages : list HistoryResponse) (query : url_Values) : url_Values :=
  foldl (fun q rsp => next_query rsp q) query pages.

(** The URL of [GetRefundHistory] after a page. *)
Definition next_refund_URL (baseURL : string) (rsp : RefundLookupResponse)
    (URL : string) : string :=
  if Refund_HasMore rsp && negb (String.eqb (Refund_Revision rsp) "")
  then baseURL +:+ "?" +:+ Values_Encode (Values_Set "revision" (Refund_Revision rsp) ∅)
  else URL.

(** The URL of [GetRefundHistory] after a run of pages. *)
Definition refund_URL_after (baseURL : string) (pages : list RefundLookupResponse)
    (URL : string) : string :=
  foldl (fun u rsp => next_refund_URL baseURL rsp u) URL pages.

(** The [n]-th answer of the transport is a 200 whose body decodes to the
    refund page [rsp], whatever the request. *)
Definition ServesRefund (cli : http_Client) (n : nat) (rsp : RefundLookupResponse) : Prop :=
  ∀ req, ∃ b,
    RoundTrip cli n req = Response http_StatusOK (ReadOk b) ∧
    json_Unmarshal_RefundLookupResponse b RefundLookupResponse_zero = (rsp, None).

End Endpoints.

(** ** A concrete instance for the other endpoints *)
Module DemoEndpoints.
Import Demo.

Definition unmarshalPointer (body : bytes) (rsp : option string)
  : option string * option error :=
  match body with
  | [Byte.x7b; Byte.x7d] => (Some "decoded", None)
  | _ => (rsp, Some (fmt_Errorf "unexpected end of JSON input"))
  end.

Definition encodeBody (body : Z) : Result bytes :=
  if body <? 0 then Err (fmt_Errorf "json: unsupported value")
  else Ok [Byte.x7b; Byte.x7d].

#[global] Instance endpoints : Endpoints := {|
  StatusResponse := string;
  OrderLookupResponse := string;
  RefundLookupResponse := Page;
  RefundLookupResponse_zero := {| more := false; rev := "" |};
  Refund_HasMore := more;
  Refund_Revision := rev;
  ConsumptionRequestBody := Z;
  ExtendRenewalDateRequest := Z;
  json_Unmarshal_StatusResponse := unmarshalPointer;
  json_Unmarshal_OrderLookupResponse := unmarshalPointer;
  json_Unmarshal_RefundLookupResponse := unmarshal;
  json_Encode_ConsumptionRequestBody := encodeBody;
  json_Encode_ExtendRenewalDateRequest := encodeBody
|}.


(** The concrete instance with one more payload, whose root entry is not a
    certificate. *)
Definition garbling : Collaborators := {|
  JWSTransaction := string;
  JWSTransaction_zero := "";
  HistoryResponse := Page;
  HistoryResponse_zero := {| more := false; rev := "" |};
  HasMore := more;
  Revision := rev;
  extractCertByIndex := fun c tokenStr index =>
    if String.eqb tokenStr "garbled-root" && (index =? 2) then Ok [Byte.xff]
    else extract c tokenStr index;
  verifyCert := verify;
  x509_ParseCertificate := parseCertificate;
  jwt_ParseWithClaims := parseWithClaims;
  json_Unmarshal := unmarshal;
  http_NewRequest := newRequest;
  Values_Encode := encode;
  signToken := sign;
  safetyMargin := 60000;
  tokenLifetime := 1200000;
  tokenAudience := "appstoreconnect-v1"
|}.

End DemoEndpoints.

(** * Verification *)

Ltac run_M :=
  unfold mbind, M_bind, mret, M_ret, get_client, get_world, time_Now,
    time_Sleep, emit, set_Token in *;
  cbn beta iota in *.

Section SignedPayloads.
Context `{Collaborators}.

(** No branch of [parseSignedTransaction] writes to the store. *)
Lemma parseSignedTransaction_frame transaction w :
  snd (parseSignedTransaction transaction w) = w.
Proof.
  unfold parseSignedTransaction. run_M.
  repeat (match goal with
          | |- context [match ?x with _ => _ end] => destruct x
          end; try reflexivity).
Qed.

(** With the chain of the payload at hand, the result is decided by the
    verifier run on root, intermediate and leaf, then by the key type of
    the leaf, then by the signature check. *)
Lemma parseSignedTransaction_chain transaction w chain :
  EmbeddedChain (client_cert (client w)) transaction chain →
  fst (parseSignedTransaction transaction w) =
    match verifyCert (client_cert (client w)) (root chain) (intermediate chain) (leaf chain) with
    | Some err => (None, Some err)
    | None =>
      match as_ecdsa (PublicKey (leaf chain)) with
      | None => (None, Some (fmt_Errorf "appstore public key must be of type ecdsa.PublicKey"))
      | Some pk =>
        match jwt_ParseWithClaims transaction JWSTransaction_zero
                (fun _ => (PK_ecdsa pk, None)) with
        | (_, Some err) => (None, Some err)
        | (tran, None) => (Some tran, None)
        end
      end
    end.
Proof.
  intros (lb & ib & rb & Hl & Hlp & Hi & Hip & Hr & Hrp).
  unfold parseSignedTransaction. run_M.
  rewrite Hr, Hrp, Hi, Hip, Hl, Hlp.
  destruct (verifyCert _ _ _ _); [reflexivity|].
  destruct (as_ecdsa _); [|reflexivity].
  destruct (jwt_ParseWithClaims _ _ _) as [tran [err|]]; reflexivity.
Qed.

(** A payload without a well-formed chain is rejected. *)
Lemma parseSignedTransaction_no_chain transaction w :
  (¬ ∃ chain, EmbeddedChain (client_cert (client w)) transaction chain) →
  ∃ err, fst (parseSignedTransaction transaction w) = (None, Some err).
Proof.
  intros Hno. unfold parseSignedTransaction. run_M.
  destruct (extractCertByIndex _ transaction 2) as [rb|] eqn:Hr; [|eauto].
  destruct (x509_ParseCertificate rb) as [rc|] eqn:Hrp; [|eauto].
  destruct (extractCertByIndex _ transaction 1) as [ib|] eqn:Hi; [|eauto].
  destruct (x509_ParseCertificate ib) as [ic|] eqn:Hip; [|eauto].
  destruct (extractCertByIndex _ transaction 0) as [lb|] eqn:Hl; [|eauto].
  destruct (x509_ParseCertificate lb) as [lc|] eqn:Hlp; [|eauto].
  exfalso. apply Hno.
  exists {| leaf := lc; intermediate := ic; root := rc |}.
  exists lb, ib, rb. cbn. auto 10.
Qed.

(** The chain a payload embeds is unique. *)
Lemma EmbeddedChain_unique c transaction chain1 chain2 :
  EmbeddedChain c transaction chain1 → EmbeddedChain c transaction chain2 →
  chain1 = chain2.
Proof.
  intros (l1 & i1 & r1 & Hl1 & Hlp1 & Hi1 & Hip1 & Hr1 & Hrp1)
         (l2 & i2 & r2 & Hl2 & Hlp2 & Hi2 & Hip2 & Hr2 & Hrp2).
  destruct chain1, chain2; cbn in *.
  congruence.
Qed.

(** Either a payload has a well-formed chain or it has none. *)
Lemma EmbeddedChain_dec c transaction :
  (∃ chain, EmbeddedChain c transaction chain) ∨
  (¬ ∃ chain, EmbeddedChain c transaction chain).
Proof.
  destruct (extractCertByIndex c transaction 2) as [rb|] eqn:Hr;
    [|right; intros (ch & ? & ? & ? & ? & ? & ? & ? & ? & ?); congruence].
  destruct (x509_ParseCertificate rb) as [rc|] eqn:Hrp;
    [|right; intros (ch & ? & ? & ? & ? & ? & ? & ? & ? & ?); congruence].
  destruct (extractCertByIndex c transaction 1) as [ib|] eqn:Hi;
    [|right; intros (ch & ? & ? & ? & ? & ? & ? & ? & ? & ?); congruence].
  destruct (x509_ParseCertificate ib) as [ic|] eqn:Hip;
    [|right; intros (ch & ? & ? & ? & ? & ? & ? & ? & ? & ?); congruence].
  destruct (extractCertByIndex c transaction 0) as [lb|] eqn:Hl;
    [|right; intros (ch & ? & ? & ? & ? & ? & ? & ? & ? & ?); congruence].
  destruct (x509_ParseCertificate lb) as [lc|] eqn:Hlp;
    [|right; intros (ch & ? & ? & ? & ? & ? & ? & ? & ? & ?); congruence].
  left. exists {| leaf := lc; intermediate := ic; root := rc |}.
  exists lb, ib, rb. cbn. auto 10.
Qed.

Lemma as_ecdsa_Some key pk : as_ecdsa key = Some pk ↔ key = PK_ecdsa pk.
Proof. destruct key; cbn; split; congruence. Qed.

Lemma as_ecdsa_None key : as_ecdsa key = None ↔ ∀ pk, key ≠ PK_ecdsa pk.
Proof.
  destruct key; cbn; split; try congruence; intros Hk.
  exfalso. eapply Hk. reflexivity.
Qed.

(** [parseSignedTransaction] hands over claims exactly when the chain
    validates, the leaf key is an ECDSA key and the signature verifies. *)
Lemma parseSignedTransaction_Some transaction w tran err :
  fst (parseSignedTransaction transaction w) = (Some tran, err) →
  err = None ∧
  ∃ chain pk,
    EmbeddedChain (client_cert (client w)) transaction chain ∧
    verifyCert (client_cert (client w)) (root chain) (intermediate chain) (leaf chain) = None ∧
    PublicKey (leaf chain) = PK_ecdsa pk ∧
    SignatureValid transaction pk tran.
Proof.
  intros Hres.
  destruct (EmbeddedChain_dec (client_cert (client w)) transaction) as [[chain Hch]|Hno].
  - rewrite (parseSignedTransaction_chain _ _ _ Hch) in Hres.
    destruct (verifyCert _ _ _ _) eqn:Hv; [discriminate|].
    destruct (as_ecdsa _) as [pk|] eqn:Hk; [|discriminate].
    destruct (jwt_ParseWithClaims _ _ _) as [tr [e|]] eqn:Hp; [discriminate|].
    inversion Hres; subst. split; [reflexivity|].
    exists chain, pk. apply as_ecdsa_Some in Hk. auto.
  - destruct (parseSignedTransaction_no_chain _ _ Hno) as [e He].
    rewrite He in Hres. discriminate.
Qed.

(** The loop of [ParseSignedTransactions] appends, in order, the claims of
    the entries [parseSignedTransaction] accepts, and leaves the store as
    it was. *)
Lemma ParseSignedTransactions_loop_spec vs l w :
  ParseSignedTransactions_loop vs (Some l) w = (Some (l ++ omap (decoded w) vs), w).
Proof.
  revert l. induction vs as [|v vs IH]; intros l; cbn.
  - unfold mret, M_ret. by rewrite app_nil_r.
  - unfold mbind, M_bind. unfold decoded at 1.
    pose proof (parseSignedTransaction_frame v w) as Hfr.
    destruct (parseSignedTransaction v w) as [[trans err] w'].
    cbn in Hfr. subst w'. cbn.
    destruct err as [e|], trans as [t|]; cbn; rewrite ?IH; try reflexivity.
    by rewrite <- app_assoc.
Qed.

Lemma ParseSignedTransactions_spec transactions w :
  ParseSignedTransactions transactions w
  = ((Some (omap (decoded w) (range transactions)), None), w).
Proof.
  unfold ParseSignedTransactions, make_slice. unfold mbind, M_bind.
  rewrite ParseSignedTransactions_loop_spec. reflexivity.
Qed.

Lemma length_omap_le {A B} (f : A → option B) (l : list A) :
  (length (omap f l) ≤ length l)%nat.
Proof.
  induction l as [|a l IH]; cbn; [lia|].
  destruct (f a); cbn; lia.
Qed.

Lemma decoded_Some w v trans :
  decoded w v = Some trans ↔ fst (parseSignedTransaction v w) = (Some trans, None).
Proof.
  unfold decoded.
  destruct (fst (parseSignedTransaction v w)) as [[t|] [e|]]; split; congruence.
Qed.

Lemma decoded_None w v err :
  fst (parseSignedTransaction v w) = (None, Some err) → decoded w v = None.
Proof. unfold decoded. intros ->. reflexivity. Qed.

(** A payload whose chain or signature fails is rejected with an error. *)
Lemma parseSignedTransaction_failure transaction w :
  (¬ ∃ leafCert, ChainValid (client_cert (client w)) transaction leafCert) ∨
  (∃ leafCert pk,
      ChainValid (client_cert (client w)) transaction leafCert ∧
      PublicKey leafCert = PK_ecdsa pk ∧
      ¬ ∃ tran, SignatureValid transaction pk tran) →
  ∃ err, fst (parseSignedTransaction transaction w) = (None, Some err).
Proof.
  intros Hfail.
  destruct (EmbeddedChain_dec (client_cert (client w)) transaction) as [[chain Hch]|Hno];
    [|by apply parseSignedTransaction_no_chain].
  rewrite (parseSignedTransaction_chain _ _ _ Hch).
  destruct (verifyCert _ _ _ _) as [e|] eqn:Hv; [eauto|].
  destruct Hfail as [Hno|(leafCert & pk & (chain' & Hch' & Hleaf & _) & Hkey & Hsig)].
  - exfalso. apply Hno. exists (leaf chain), chain. auto.
  - rewrite (EmbeddedChain_unique _ _ _ _ Hch' Hch) in Hleaf. subst leafCert.
    rewrite Hkey. cbn.
    destruct (jwt_ParseWithClaims _ _ _) as [tran [e|]] eqn:Hp; [eauto|].
    exfalso. apply Hsig. exists tran. exact Hp.
Qed.

(** C1: [parseSignedTransaction] returns decoded claims only when the chain
    of the payload validates and its signature verifies against the public
    key of the chain's leaf, and then it does return them with a nil error;
    when chain validation fails, or the signature does not verify, it
    returns a nil transaction together with a non-nil error. *)
Theorem parseSignedTransaction_trust transaction w :
  (∀ tran err,
      fst (parseSignedTransaction transaction w) = (Some tran, err) →
      err = None ∧
      ∃ leafCert pk,
        ChainValid (client_cert (client w)) transaction leafCert ∧
        PublicKey leafCert = PK_ecdsa pk ∧
        SignatureValid transaction pk tran) ∧
  (∀ leafCert pk tran,
      ChainValid (client_cert (client w)) transaction leafCert →
      PublicKey leafCert = PK_ecdsa pk →
      SignatureValid transaction pk tran →
      fst (parseSignedTransaction transaction w) = (Some tran, None)) ∧
  ((¬ ∃ leafCert, ChainValid (client_cert (client w)) transaction leafCert) →
      ∃ err, fst (parseSignedTransaction transaction w) = (None, Some err)) ∧
  (∀ leafCert pk,
      ChainValid (client_cert (client w)) transaction leafCert →
      PublicKey leafCert = PK_ecdsa pk →
      (¬ ∃ tran, SignatureValid transaction pk tran) →
      ∃ err, fst (parseSignedTransaction transaction w) = (None, Some err)).
Proof.
  split; [|split; [|split]].
  - intros tran err Hres.
    destruct (parseSignedTransaction_Some _ _ _ _ Hres)
      as (Herr & chain & pk & Hch & Hv & Hk & Hs).
    split; [exact Herr|].
    exists (leaf chain), pk. repeat split; auto. by exists chain.
  - intros leafCert pk tran (chain & Hch & <- & Hv) Hk Hs.
    rewrite (parseSignedTransaction_chain _ _ _ Hch), Hv, Hk. cbn.
    unfold SignatureValid in Hs. by rewrite Hs.
  - intros Hno. apply parseSignedTransaction_failure. by left.
  - intros leafCert pk Hch Hk Hs. apply parseSignedTransaction_failure.
    right. eauto.
Qed.

(** C2, as amended: a payload whose chain or signature verification fails
    makes [parseSignedTransaction] return a nil transaction with a non-nil
    error, never an empty success; [ParseSignedTransactions] does not pass
    that error on: it leaves the entry out of its result and returns a nil
    error. *)
Theorem trust_failure_explicit_then_skipped transaction w :
  (¬ ∃ leafCert, ChainValid (client_cert (client w)) transaction leafCert) ∨
  (∃ leafCert pk,
      ChainValid (client_cert (client w)) transaction leafCert ∧
      PublicKey leafCert = PK_ecdsa pk ∧
      ¬ ∃ tran, SignatureValid transaction pk tran) →
  (∃ err, fst (parseSignedTransaction transaction w) = (None, Some err)) ∧
  ∀ before after,
    fst (ParseSignedTransactions (Some (before ++ transaction :: after)) w)
    = fst (ParseSignedTransactions (Some (before ++ after)) w) ∧
    snd (fst (ParseSignedTransactions (Some (before ++ transaction :: after)) w)) = None.
Proof.
  intros Hfail.
  destruct (parseSignedTransaction_failure _ _ Hfail) as [err Herr].
  split; [eauto|].
  intros before after. rewrite !ParseSignedTransactions_spec. cbn.
  rewrite !omap_app. cbn. by rewrite (decoded_None _ _ _ Herr).
Qed.

(** C3: [ParseSignedTransactions] treats each entry on its own: the result
    holds the claims of exactly the entries [parseSignedTransaction]
    accepts, in the order of their payloads; a rejected entry is left out
    and the entries after it are still processed.  For three payloads of
    which the second is rejected, the result is the first and the third. *)
Theorem ParseSignedTransactions_partial transactions w :
  ParseSignedTransactions transactions w
  = ((Some (omap (decoded w) (range transactions)), None), w) ∧
  (∀ v trans,
      decoded w v = Some trans ↔
      fst (parseSignedTransaction v w) = (Some trans, None)) ∧
  (∀ l1 l2,
      range transactions = l1 ++ l2 →
      fst (fst (ParseSignedTransactions transactions w))
      = Some (range (fst (fst (ParseSignedTransactions (Some l1) w))) ++
              range (fst (fst (ParseSignedTransactions (Some l2) w))))) ∧
  (∀ v1 v2 v3 t1 t3 err2,
      range transactions = [v1; v2; v3] →
      fst (parseSignedTransaction v1 w) = (Some t1, None) →
      fst (parseSignedTransaction v2 w) = (None, Some err2) →
      fst (parseSignedTransaction v3 w) = (Some t3, None) →
      fst (ParseSignedTransactions transactions w) = (Some [t1; t3], None)).
Proof.
  split; [apply ParseSignedTransactions_spec|].
  split; [apply decoded_Some|]. split.
  - intros l1 l2 Hl. rewrite !ParseSignedTransactions_spec. cbn.
    by rewrite Hl, omap_app.
  - intros v1 v2 v3 t1 t3 err2 Hl H1 H2 H3.
    rewrite ParseSignedTransactions_spec, Hl. cbn.
    apply decoded_Some in H1, H3. apply decoded_None in H2.
    by rewrite H1, H2, H3.
Qed.

(** C4: once the chain of a payload has validated, a leaf whose public key
    is not an ECDSA key makes [parseSignedTransaction] fail with the
    unsupported-key error and no claims; for an ECDSA leaf key, the key
    function given to the signature check answers that key for every
    token, and the check alone decides the result. *)
Theorem parseSignedTransaction_key_type transaction w leafCert :
  ChainValid (client_cert (client w)) transaction leafCert →
  ((∀ pk, PublicKey leafCert ≠ PK_ecdsa pk) →
    fst (parseSignedTransaction transaction w)
    = (None, Some (fmt_Errorf "appstore public key must be of type ecdsa.PublicKey"))) ∧
  (∀ pk, PublicKey leafCert = PK_ecdsa pk →
    ∃ keyFunc : jwt_Keyfunc,
      (∀ token, keyFunc token = (PK_ecdsa pk, None)) ∧
      fst (parseSignedTransaction transaction w)
      = match jwt_ParseWithClaims transaction JWSTransaction_zero keyFunc with
        | (_, Some err) => (None, Some err)
        | (tran, None) => (Some tran, None)
        end).
Proof.
  intros (chain & Hch & <- & Hv).
  rewrite (parseSignedTransaction_chain _ _ _ Hch), Hv. split.
  - intros Hk. apply as_ecdsa_None in Hk. by rewrite Hk.
  - intros pk Hk. exists (fun _ => (PK_ecdsa pk, None)).
    split; [done|]. by rewrite Hk.
Qed.

(** C5: the chain of a payload is read leaf-first: entry 0 is parsed as
    the leaf, entry 1 as the intermediate, entry 2 as the root.  Claims are
    returned only for a payload that embeds such a triple, and the verifier
    is run on exactly this triple, each certificate in its role: its
    error is the error of [parseSignedTransaction], and without the triple
    the payload is rejected. *)
Theorem parseSignedTransaction_chain_roles transaction w :
  (∀ tran err,
      fst (parseSignedTransaction transaction w) = (Some tran, err) →
      ∃ chain,
        EmbeddedChain (client_cert (client w)) transaction chain ∧
        verifyCert (client_cert (client w))
          (root chain) (intermediate chain) (leaf chain) = None) ∧
  (∀ chain err,
      EmbeddedChain (client_cert (client w)) transaction chain →
      verifyCert (client_cert (client w))
        (root chain) (intermediate chain) (leaf chain) = Some err →
      fst (parseSignedTransaction transaction w) = (None, Some err)) ∧
  (∀ chain1 chain2,
      EmbeddedChain (client_cert (client w)) transaction chain1 →
      EmbeddedChain (client_cert (client w)) transaction chain2 →
      chain1 = chain2) ∧
  ((¬ ∃ chain, EmbeddedChain (client_cert (client w)) transaction chain) →
      ∃ err, fst (parseSignedTransaction transaction w) = (None, Some err)).
Proof.
  repeat split.
  - intros tran err Hres.
    destruct (parseSignedTransaction_Some _ _ _ _ Hres)
      as (_ & chain & pk & Hch & Hv & _).
    eauto.
  - intros chain err Hch Hv.
    by rewrite (parseSignedTransaction_chain _ _ _ Hch), Hv.
  - apply EmbeddedChain_unique.
  - apply parseSignedTransaction_no_chain.
Qed.

(** C8: [parseSignedTransaction] leaves the store as it found it, whether
    it accepts the payload or not: the fields [Token], [cert] and
    [httpCli] of the client are unchanged, and so are the clock and the
    trace (no signing operation, no request). *)
Theorem parseSignedTransaction_stateless transaction w :
  client_Token (client (snd (parseSignedTransaction transaction w)))
  = client_Token (client w) ∧
  client_cert (client (snd (parseSignedTransaction transaction w)))
  = client_cert (client w) ∧
  client_httpCli (client (snd (parseSignedTransaction transaction w)))
  = client_httpCli (client w) ∧
  snd (parseSignedTransaction transaction w) = w.
Proof. by rewrite parseSignedTransaction_frame. Qed.

(** C9: for every input, nil and empty included, [ParseSignedTransactions]
    returns a non-nil slice and a nil error, and the slice is no longer
    than the input. *)
Theorem ParseSignedTransactions_total transactions w :
  ∃ result : list JWSTransaction,
    fst (ParseSignedTransactions transactions w) = (Some result, None) ∧
    (length result ≤ len transactions)%nat.
Proof.
  rewrite ParseSignedTransactions_spec. cbn.
  eexists. split; [reflexivity|]. apply length_omap_le.
Qed.

End SignedPayloads.

Section Transport.
Context `{Collaborators}.

Lemma Generate_run w :
  let cfg := config (client_Token (client w)) in
  let h := tokenHeader cfg in
  let c := tokenClaims cfg (now w) in
  Generate w =
    match signToken (KeyContent cfg) h c with
    | Err err => (("", Some err), after_sign w h c)
    | Ok bearer => ((bearer, None), after_issue (after_sign w h c) bearer (exp c))
    end.
Proof.
  unfold Generate. run_M. cbn.
  destruct (signToken _ _ _); reflexivity.
Qed.

Lemma GenerateIfExpired_run w :
  GenerateIfExpired w =
    match cached (client_Token (client w)) with
    | Some c => if fresh c (now w) then ((Bearer c, None), w) else Generate w
    | None => Generate w
    end.
Proof.
  unfold GenerateIfExpired. run_M.
  destruct (cached _) as [c|]; [|reflexivity].
  destruct (fresh c (now w)); reflexivity.
Qed.

Lemma requests_app tr1 tr2 : requests (tr1 ++ tr2) = requests tr1 ++ requests tr2.
Proof. apply omap_app. Qed.

Lemma signings_app tr1 tr2 : signings (tr1 ++ tr2) = signings tr1 ++ signings tr2.
Proof. apply omap_app. Qed.

Lemma Generate_frame w : issuer_frame w (snd (Generate w)).
Proof.
  rewrite Generate_run. cbn.
  destruct (signToken _ _ _); cbn; unfold issuer_frame; cbn;
    rewrite requests_app; cbn; rewrite app_nil_r; auto.
Qed.

Lemma GenerateIfExpired_frame w : issuer_frame w (snd (GenerateIfExpired w)).
Proof.
  rewrite GenerateIfExpired_run.
  destruct (cached _) as [c|]; [destruct (fresh c (now w))|];
    try apply Generate_frame.
  cbn. unfold issuer_frame. auto.
Qed.

(** A client that has not issued a token yet. *)
Lemma Issued_empty cfg : Issued {| config := cfg; cached := None |}.
Proof. intros c Hc. discriminate Hc. Qed.

(** The issuer keeps its cache to tokens it signed. *)
Lemma GenerateIfExpired_Issued w :
  Issued (client_Token (client w)) →
  Issued (client_Token (client (snd (GenerateIfExpired w)))).
Proof.
  intros Hiss. rewrite GenerateIfExpired_run.
  assert (Issued (client_Token (client (snd (Generate w))))) as HG.
  { rewrite Generate_run. cbn.
    destruct (signToken _ _ _) as [bearer|err] eqn:Hs; cbn; [|exact Hiss].
    intros c Hc. cbn in *. inversion Hc; subst; clear Hc. cbn.
    exists (now w). split; [exact Hs|reflexivity]. }
  destruct (cached _) as [c|]; [destruct (fresh c (now w))|]; auto.
Qed.

Lemma GenerateIfExpired_ok w :
  AlwaysSigns (config (client_Token (client w))) →
  ∃ authToken, fst (GenerateIfExpired w) = (authToken, None).
Proof.
  intros Hs. rewrite GenerateIfExpired_run.
  assert (∃ authToken, fst (Generate w) = (authToken, None)) as HG.
  { rewrite Generate_run. cbn.
    destruct (Hs (tokenHeader (config (client_Token (client w))))
                 (tokenClaims (config (client_Token (client w))) (now w)))
      as [s Hsig].
    rewrite Hsig. eauto. }
  destruct (cached _) as [c|]; [destruct (fresh c (now w))|]; eauto.
Qed.

(** C6: while the cached token is fresh (its expiry minus the safety
    margin is in the future), asking for the current token returns the
    cached string and leaves the store untouched, so asking twice gives the
    same string and no signing operation takes place; once it is no longer
    fresh, a successful signing returns a different string, cached with a
    later expiry. *)
Theorem GenerateIfExpired_idempotent w c :
  cached (client_Token (client w)) = Some c →
  (fresh c (now w) = true →
    GenerateIfExpired w = ((Bearer c, None), w) ∧
    fst ((GenerateIfExpired ;; GenerateIfExpired) w) = (Bearer c, None) ∧
    signings (trace (snd ((GenerateIfExpired ;; GenerateIfExpired) w)))
    = signings (trace w)) ∧
  (fresh c (now w) = false →
    safetyMargin < tokenLifetime →
    ExpiryBound →
    Issued (client_Token (client w)) →
    ∀ bearer,
      signToken (KeyContent (config (client_Token (client w))))
        (tokenHeader (config (client_Token (client w))))
        (tokenClaims (config (client_Token (client w))) (now w)) = Ok bearer →
      fst (GenerateIfExpired w) = (bearer, None) ∧
      bearer ≠ Bearer c ∧
      cached (client_Token (client (snd (GenerateIfExpired w))))
      = Some {| Bearer := bearer; ExpiredAt := now w + tokenLifetime |} ∧
      ExpiredAt c < now w + tokenLifetime).
Proof.
  intros Hc. split.
  - intros Hfresh.
    assert (GenerateIfExpired w = ((Bearer c, None), w)) as Hrun.
    { by rewrite GenerateIfExpired_run, Hc, Hfresh. }
    split; [exact Hrun|].
    unfold mbind, M_bind. rewrite Hrun. cbn. by rewrite Hrun.
  - intros Hstale Hlife Hbound Hiss bearer Hsig.
    unfold fresh in Hstale. apply Z.ltb_ge in Hstale.
    rewrite GenerateIfExpired_run, Hc.
    replace (fresh c (now w)) with false
      by (symmetry; unfold fresh; by apply Z.ltb_ge).
    rewrite Generate_run. cbn. rewrite Hsig. cbn.
    repeat split; [|lia].
    intros ->.
    destruct (Hiss c Hc) as (t0 & Hsig0 & Hexp0).
    pose proof (Hbound _ _ _ _ _ Hsig Hsig0) as Heq.
    rewrite Hexp0 in Heq. cbn in Heq. lia.
Qed.

(** The three header updates of [Do] leave the bearer token under
    Authorization. *)
Lemma Do_headers authToken req :
  Header (Header_Set "User-Agent" "App Store Client"
            (Header_Set "Authorization" ("Bearer " +:+ authToken)
               (Header_Set "Content-Type" "application/json" req)))
    !! "Authorization" = Some ("Bearer " +:+ authToken).
Proof.
  cbn. rewrite lookup_insert_ne by discriminate. apply lookup_insert_eq.
Qed.

(** C7: [Do] asks the issuer for the current token once, before anything
    else.  If that fails, the wrapped error is returned and no request
    reaches the transport.  Otherwise at most one request is handed to the
    transport, built from the arguments of [Do], and it carries
    ["Bearer "] followed by that token under Authorization; the store
    after [Do] is the store the issuer left, with that request appended to
    the trace. *)
Theorem Do_bearer method url body w :
  let '((authToken, err), w1) := GenerateIfExpired w in
  match err with
  | Some err =>
    Do method url body w
    = ((0, None, Some (fmt_Errorw "appstore generate token err" err)), w1) ∧
    requests (trace w1) = requests (trace w)
  | None =>
    match http_NewRequest method url body with
    | Err err =>
      Do method url body w
      = ((0, None, Some (fmt_Errorw "appstore new http request err" err)), w1) ∧
      requests (trace w1) = requests (trace w)
    | Ok req0 =>
      ∃ req,
        snd (Do method url body w)
        = {| client := client w1; now := now w1; trace := trace w1 ++ [EvRequest req] |} ∧
        requests (trace (snd (Do method url body w))) = requests (trace w) ++ [req] ∧
        signings (trace (snd (Do method url body w))) = signings (trace w1) ∧
        Header req !! "Authorization" = Some ("Bearer " +:+ authToken) ∧
        Method req = Method req0 ∧ URL req = URL req0 ∧ Body req = Body req0
    end
  end.
Proof.
  pose proof (GenerateIfExpired_frame w) as (_ & _ & _ & _ & Hreq).
  unfold Do. run_M.
  destruct (GenerateIfExpired w) as [[authToken err] w1]. cbn in Hreq.
  destruct err as [err|]; [by split|].
  destruct (http_NewRequest method url body) as [req0|err]; [|by split].
  eexists. cbn.
  destruct (RoundTrip _ _ _) as [e|StatusCode [b|e]]; cbn;
    (split; [reflexivity|]);
    rewrite requests_app, signings_app, Hreq; cbn; rewrite app_nil_r;
    (split; [reflexivity|]); (split; [reflexivity|]);
    (split; [apply Do_headers|]); auto.
Qed.

End Transport.

(** * Concrete runs *)

Module Runs.
Import Demo.

(** The chain every payload of the concrete instance embeds, unless its
    name says otherwise. *)
Lemma demo_chain transaction :
  String.eqb transaction "no-chain" = false →
  String.eqb transaction "rsa-leaf" = false →
  String.eqb transaction "rogue-root" = false →
  ChainValid (client_cert (client w0)) transaction
    {| Raw := leafDER; PublicKey := PK_ecdsa leafKey |}.
Proof.
  intros H1 H2 H3.
  exists {| leaf := {| Raw := leafDER; PublicKey := PK_ecdsa leafKey |};
            intermediate := {| Raw := interDER; PublicKey := PK_ecdsa interKey |};
            root := {| Raw := rootDER; PublicKey := PK_ecdsa rootKey |} |}.
  split; [|split; reflexivity].
  exists leafDER, interDER, rootDER. cbn. unfold extract.
  rewrite H1, H2, H3. repeat split; reflexivity.
Defined.

(** C1 at a payload that verifies and at one whose signature was tampered
    with. *)
Lemma parseSignedTransaction_trust_run :
  fst (parseSignedTransaction "first" w0) = (Some "claims of first", None) ∧
  ∃ err, fst (parseSignedTransaction "tampered-second" w0) = (None, Some err).
Proof.
  split.
  - apply (proj1 (proj2 (@parseSignedTransaction_trust collaborators "first" w0))
             {| Raw := leafDER; PublicKey := PK_ecdsa leafKey |} leafKey).
    + apply demo_chain; reflexivity.
    + reflexivity.
    + reflexivity.
  - apply (proj2 (proj2 (proj2 (@parseSignedTransaction_trust collaborators "tampered-second" w0)))
             {| Raw := leafDER; PublicKey := PK_ecdsa leafKey |} leafKey).
    + apply demo_chain; reflexivity.
    + reflexivity.
    + intros [tran Hsig]. vm_compute in Hsig. discriminate Hsig.
Defined.

(** C2 as stated fails: the signature of the only entry does not verify,
    [parseSignedTransaction] reports it, and still the batch returns an
    empty slice with a nil error. *)
Lemma ParseSignedTransactions_swallows_failure :
  fst (parseSignedTransaction "tampered-second" w0)
  = (None, Some (fmt_Errorf "crypto/ecdsa: verification error")) ∧
  fst (ParseSignedTransactions (Some ["tampered-second"]) w0) = (Some [], None).
Proof. split; reflexivity. Qed.

(** C2 as amended, at the tampered payload between two others. *)
Lemma trust_failure_explicit_then_skipped_run :
  (∃ err, fst (parseSignedTransaction "tampered-second" w0) = (None, Some err)) ∧
  ∀ before after,
    fst (ParseSignedTransactions (Some (before ++ "tampered-second" :: after)) w0)
    = fst (ParseSignedTransactions (Some (before ++ after)) w0) ∧
    snd (fst (ParseSignedTransactions (Some (before ++ "tampered-second" :: after)) w0))
    = None.
Proof.
  apply (@trust_failure_explicit_then_skipped collaborators "tampered-second" w0).
  right. exists {| Raw := leafDER; PublicKey := PK_ecdsa leafKey |}, leafKey.
  split; [apply demo_chain; reflexivity|].
  split; [reflexivity|].
  intros [tran Hsig]. vm_compute in Hsig. discriminate Hsig.
Defined.

(** C3 at three payloads of which the second is tampered with. *)
Lemma ParseSignedTransactions_partial_run :
  fst (ParseSignedTransactions (Some ["first"; "tampered-second"; "third"]) w0)
  = (Some ["claims of first"; "claims of third"], None).
Proof.
  apply (proj2 (proj2 (proj2
           (@ParseSignedTransactions_partial collaborators
              (Some ["first"; "tampered-second"; "third"]) w0)))
           "first" "tampered-second" "third" "claims of first" "claims of third"
           (fmt_Errorf "crypto/ecdsa: verification error"));
    reflexivity.
Defined.

(** C4 at a payload whose leaf carries an RSA key. *)
Lemma parseSignedTransaction_key_type_run :
  fst (parseSignedTransaction "rsa-leaf" w0)
  = (None, Some (fmt_Errorf "appstore public key must be of type ecdsa.PublicKey")).
Proof.
  refine (proj1 (@parseSignedTransaction_key_type collaborators "rsa-leaf" w0
                   {| Raw := rsaLeafDER; PublicKey := PK_rsa 3233 17 |} _) _).
  - exists {| leaf := {| Raw := rsaLeafDER; PublicKey := PK_rsa 3233 17 |};
              intermediate := {| Raw := interDER; PublicKey := PK_ecdsa interKey |};
              root := {| Raw := rootDER; PublicKey := PK_ecdsa rootKey |} |}.
    split; [|split; reflexivity].
    exists rsaLeafDER, interDER, rootDER. repeat split; reflexivity.
  - intros pk Hpk. discriminate Hpk.
Defined.

(** C5 at a payload whose entry 2 is a root that is not pinned. *)
Lemma parseSignedTransaction_chain_roles_run :
  fst (parseSignedTransaction "rogue-root" w0)
  = (None, Some (fmt_Errorf "root certificate is not trusted")).
Proof.
  apply (proj1 (proj2 (@parseSignedTransaction_chain_roles collaborators "rogue-root" w0))
           {| leaf := {| Raw := leafDER; PublicKey := PK_ecdsa leafKey |};
              intermediate := {| Raw := interDER; PublicKey := PK_ecdsa interKey |};
              root := {| Raw := rogueRootDER; PublicKey := PK_ecdsa rootKey |} |}).
  - exists leafDER, interDER, rogueRootDER. repeat split; reflexivity.
  - reflexivity.
Defined.

(** The concrete signer writes the expiry in decimal. *)
Lemma demo_ExpiryBound : ExpiryBound.
Proof.
  intros key h c1 c2 s H1 H2. cbn in H1, H2. unfold sign in H1, H2.
  destruct key; [discriminate H1|].
  apply (inj pretty). congruence.
Defined.

(** C6 at a client holding the token that expires at 2200000: asked at
    2000000 it hands out the cached token, asked at 2140000, inside the
    safety margin, it signs a new one that expires at 3340000. *)
Lemma GenerateIfExpired_idempotent_run :
  (GenerateIfExpired (wCached threePages 2000000)
   = (("2200000", None), wCached threePages 2000000) ∧
   fst ((GenerateIfExpired ;; GenerateIfExpired) (wCached threePages 2000000))
   = ("2200000", None) ∧
   signings (trace (snd ((GenerateIfExpired ;; GenerateIfExpired)
                           (wCached threePages 2000000)))) = []) ∧
  (fst (GenerateIfExpired (wCached threePages 2140000)) = ("3340000", None) ∧
   "3340000" ≠ "2200000" ∧
   cached (client_Token (client (snd (GenerateIfExpired (wCached threePages 2140000)))))
   = Some {| Bearer := "3340000"; ExpiredAt := 3340000 |} ∧
   2200000 < 3340000).
Proof.
  split.
  - apply (proj1 (@GenerateIfExpired_idempotent collaborators (wCached threePages 2000000)
                    firstToken eq_refl)).
    reflexivity.
  - apply (proj2 (@GenerateIfExpired_idempotent collaborators (wCached threePages 2140000)
                    firstToken eq_refl)).
    + reflexivity.
    + reflexivity.
    + exact demo_ExpiryBound.
    + intros c Hc. exists 1000000. inversion Hc. split; reflexivity.
    + reflexivity.
Defined.

End Runs.

(** * The URLs of the endpoints *)

Section URLs.

Lemma append_nil_r s : s +:+ "" = s.
Proof.
  induction s as [|a s IH]; [reflexivity|].
  change (String a (s +:+ "") = String a s). by rewrite IH.
Qed.

Lemma append_assoc s1 s2 s3 : (s1 +:+ s2) +:+ s3 = s1 +:+ (s2 +:+ s3).
Proof.
  induction s1 as [|a s1 IH]; [reflexivity|].
  change (String a ((s1 +:+ s2) +:+ s3) = String a (s1 +:+ (s2 +:+ s3))).
  by rewrite IH.
Qed.

(** The placeholder ends every path, so the identifier is spliced in as
    it is after the fixed part of the path. *)
Ltac splice id :=
  intros; rewrite <- (append_nil_r id) at 2;
  match goal with |- context [if ?b then _ else _] => destruct b end;
  vm_compute; reflexivity.


Lemma historyURL_eq (sandbox : bool) originalTransactionId :
  historyURL sandbox originalTransactionId
  = (if sandbox then HostSandBox else HostProduction) +:+
    "/inApps/v1/history/" +:+ originalTransactionId.
Proof. unfold historyURL. splice originalTransactionId. Qed.

Lemma refundURL_eq (sandbox : bool) originalTransactionId :
  strings_Replace
    (if sandbox then HostSandBox +:+ PathRefundHistory
     else HostProduction +:+ PathRefundHistory)
    "{originalTransactionId}" originalTransactionId
  = (if sandbox then HostSandBox else HostProduction) +:+
    "/inApps/v2/refund/lookup/" +:+ originalTransactionId.
Proof. splice originalTransactionId. Qed.





End URLs.

(** * The transport, once more *)

Section DoFacts.
Context `{Collaborators}.

(** [Do] in one piece: the token, the request, the answer. *)
Lemma Do_run method url body w :
  Do method url body w =
    let '((authToken, err), w1) := GenerateIfExpired w in
    match err with
    | Some err => ((0, None, Some (fmt_Errorw "appstore generate token err" err)), w1)
    | None =>
      match http_NewRequest method url body with
      | Err err => ((0, None, Some (fmt_Errorw "appstore new http request err" err)), w1)
      | Ok req0 =>
        (Do_result (RoundTrip (client_httpCli (client w1))
                      (length (requests (trace w1))) (authorize authToken req0)),
         after_request w1 (authorize authToken req0))
      end
    end.
Proof.
  unfold Do. run_M.
  destruct (GenerateIfExpired w) as [[authToken [err|]] w1]; [reflexivity|].
  destruct (http_NewRequest method url body) as [req0|err]; [|reflexivity].
  cbn. unfold Do_result, after_request, authorize.
  destruct (RoundTrip _ _ _) as [e|StatusCode [b|e]]; reflexivity.
Qed.

Lemma authorize_Authenticated authToken req0 :
  Authenticated (authorize authToken req0).
Proof. exists authToken. apply Do_headers. Qed.

Lemma authorize_fields authToken req0 :
  Method (authorize authToken req0) = Method req0 ∧
  URL (authorize authToken req0) = URL req0 ∧
  Body (authorize authToken req0) = Body req0.
Proof. by repeat split. Qed.

Lemma requests_after_request w req :
  requests (trace (after_request w req)) = requests (trace w) ++ [req].
Proof. cbn. by rewrite requests_app. Qed.

(** What [Do] leaves alone, and the requests it adds: none or one, with a
    bearer token. *)
Lemma Do_frame method url body w :
  client_httpCli (client (snd (Do method url body w))) = client_httpCli (client w) ∧
  client_cert (client (snd (Do method url body w))) = client_cert (client w) ∧
  config (client_Token (client (snd (Do method url body w))))
  = config (client_Token (client w)) ∧
  now (snd (Do method url body w)) = now w ∧
  ∃ sent,
    requests (trace (snd (Do method url body w))) = requests (trace w) ++ sent ∧
    (length sent ≤ 1)%nat ∧ Forall Authenticated sent.
Proof.
  rewrite Do_run.
  pose proof (GenerateIfExpired_frame w) as (Hcli & Hcert & Hcfg & Hnow & Hreq).
  destruct (GenerateIfExpired w) as [[authToken [err|]] w1]; cbn in *.
  - repeat split; auto. exists []. rewrite app_nil_r.
    repeat split; [done|cbn; lia|constructor].
  - destruct (http_NewRequest method url body) as [req0|err]; cbn.
    + repeat split; auto. exists [authorize authToken req0].
      rewrite requests_app, Hreq. cbn.
      repeat split; [cbn; lia|].
      constructor; [apply authorize_Authenticated|constructor].
    + repeat split; auto. exists []. rewrite app_nil_r.
      repeat split; [done|cbn; lia|constructor].
Qed.



End DoFacts.

(** * Transaction history *)

Section HistoryFacts.
Context `{Collaborators}.

Lemma GetTransactionHistory_unfold fuel originalTransactionId query w :
  GetTransactionHistory fuel originalTransactionId query w
  = GetTransactionHistory_loop fuel
      (host w +:+ "/inApps/v1/history/" +:+ originalTransactionId)
      (query_map query) None w.
Proof.
  unfold GetTransactionHistory, query_map. run_M.
  change (strings_Replace _ _ _) with
    (historyURL (Sandbox (config (client_Token (client w)))) originalTransactionId).
  by rewrite historyURL_eq.
Qed.

(** The store after one iteration that goes on. *)
Lemma step_world_frame w w1 authToken req0 :
  GenerateIfExpired w = ((authToken, None), w1) →
  let w2 := snd (time_Sleep 10 (after_request w1 (authorize authToken req0))) in
  client_httpCli (client w2) = client_httpCli (client w) ∧
  config (client_Token (client w2)) = config (client_Token (client w)) ∧
  requests (trace w2) = requests (trace w) ++ [authorize authToken req0].
Proof.
  intros HG.
  pose proof (GenerateIfExpired_frame w) as (Hcli & _ & Hcfg & _ & Hreq).
  rewrite HG in Hcli, Hcfg, Hreq. cbn in Hcli, Hcfg, Hreq.
  cbn. by rewrite requests_app, Hreq.
Qed.

(** When signing does not fail the token is there. *)
Lemma token_ready w :
  AlwaysSigns (config (client_Token (client w))) →
  ∃ authToken w1, GenerateIfExpired w = ((authToken, None), w1).
Proof.
  intros Hsign. destruct (GenerateIfExpired_ok w Hsign) as [authToken Htok].
  destruct (GenerateIfExpired w) as [[authToken' err] w1].
  cbn in Htok. inversion Htok; subst. eauto.
Qed.

(** One iteration over a page, stated on the calls it makes: the token is
    there, the request builds, the transport serves the page. *)
Lemma history_step fuel U query responses w rsp authToken w1 req0 :
  GenerateIfExpired w = ((authToken, None), w1) →
  http_NewRequest http_MethodGet (U +:+ "?" +:+ Values_Encode (default ∅ query)) None
  = Ok req0 →
  Serves (client_httpCli (client w)) (length (requests (trace w))) rsp →
  GetTransactionHistory_loop (S fuel) U query responses w =
    if HasMore rsp
    then
      if negb (String.eqb (Revision rsp) "")
      then
        match query with
        | None => (Panicked "assignment to entry in nil map",
                   after_request w1 (authorize authToken req0))
        | Some values =>
          GetTransactionHistory_loop fuel U
            (Some (Values_Set "revision" (Revision rsp) values))
            (append responses rsp)
            (snd (time_Sleep 10 (after_request w1 (authorize authToken req0))))
        end
      else
        GetTransactionHistory_loop fuel U query (append responses rsp)
          (snd (time_Sleep 10 (after_request w1 (authorize authToken req0))))
    else (Returned (append responses rsp, None),
          after_request w1 (authorize authToken req0)).
Proof.
  intros HG Hreq0 Hserve.
  pose proof (GenerateIfExpired_frame w) as (Hcli & _ & _ & _ & Hreq).
  rewrite HG in Hcli, Hreq. cbn in Hcli, Hreq.
  cbn [GetTransactionHistory_loop]. unfold mbind at 1, M_bind at 1.
  rewrite Do_run, HG, Hreq0, Hcli, Hreq.
  destruct (Hserve (authorize authToken req0)) as (b & Hrt & Hjs).
  rewrite Hrt. cbn. rewrite Hjs.
  destruct (HasMore rsp); [|reflexivity]. cbn.
  destruct (negb (String.eqb (Revision rsp) "")); [|reflexivity].
  by destruct query.
Qed.

(** The same iteration when the pointer holds a map. *)
Lemma history_step_map fuel U values responses w rsp authToken w1 req0 :
  GenerateIfExpired w = ((authToken, None), w1) →
  http_NewRequest http_MethodGet (U +:+ "?" +:+ Values_Encode values) None = Ok req0 →
  Serves (client_httpCli (client w)) (length (requests (trace w))) rsp →
  HasMore rsp = true →
  GetTransactionHistory_loop (S fuel) U (Some values) responses w
  = GetTransactionHistory_loop fuel U (Some (next_query rsp values))
      (append responses rsp)
      (snd (time_Sleep 10 (after_request w1 (authorize authToken req0)))).
Proof.
  intros HG Hreq0 Hserve Hmore.
  rewrite (history_step fuel U (Some values) responses w rsp authToken w1 req0
             HG Hreq0 Hserve).
  unfold next_query. rewrite Hmore. cbn.
  by destruct (negb (String.eqb (Revision rsp) "")).
Qed.

(** C10, at the input where the code departs from it.  The loop is to go
    on until a page without more, an error or a status other than 200.
    When the caller's pointer holds the nil map and the first page
    announces more with a revision, the loop stops instead in the panic of
    [query.Set], after one request; with the nil pointer, for which the
    code makes a fresh map, the same page takes the loop to its next
    iteration with the revision in the query. *)
Theorem GetTransactionHistory_nil_map_panics fuel originalTransactionId w rsp
    authToken w1 req0 :
  let U := host w +:+ "/inApps/v1/history/" +:+ originalTransactionId in
  GenerateIfExpired w = ((authToken, None), w1) →
  http_NewRequest http_MethodGet (U +:+ "?" +:+ Values_Encode ∅) None = Ok req0 →
  Serves (client_httpCli (client w)) (length (requests (trace w))) rsp →
  HasMore rsp = true →
  Revision rsp ≠ "" →
  GetTransactionHistory (S fuel) originalTransactionId (Some None) w
  = (Panicked "assignment to entry in nil map",
     after_request w1 (authorize authToken req0)) ∧
  GetTransactionHistory (S fuel) originalTransactionId None w
  = GetTransactionHistory_loop fuel U
      (Some (Values_Set "revision" (Revision rsp) ∅)) (Some [rsp])
      (snd (time_Sleep 10 (after_request w1 (authorize authToken req0)))).
Proof.
  intros U HG Hreq0 Hserve Hmore Hrev.
  assert (negb (String.eqb (Revision rsp) "") = true) as Hneq.
  { apply negb_true_iff. by apply String.eqb_neq. }
  rewrite !GetTransactionHistory_unfold. fold U. cbn [query_map]. split.
  - rewrite (history_step fuel U None None w rsp authToken w1 req0 HG Hreq0 Hserve).
    by rewrite Hmore, Hneq.
  - rewrite (history_step fuel U (Some ∅) None w rsp authToken w1 req0 HG Hreq0 Hserve).
    by rewrite Hmore, Hneq.
Qed.



(** A page leaves every key of the query but "revision" alone. *)
Lemma next_query_other rsp (query : url_Values) key :
  key ≠ "revision" → next_query rsp query !! key = query !! key.
Proof.
  intros Hkey. unfold next_query, Values_Set.
  destruct (HasMore rsp && negb (String.eqb (Revision rsp) "")); [|reflexivity].
  by rewrite lookup_insert_ne.
Qed.

Lemma query_after_other pages (query : url_Values) key :
  key ≠ "revision" → query_after pages query !! key = query !! key.
Proof.
  intros Hkey. revert query.
  induction pages as [|p pages IH]; intros query; [reflexivity|].
  cbn. unfold query_after in IH. rewrite IH. by apply next_query_other.
Qed.

Lemma query_after_snoc pages p (query : url_Values) :
  query_after (pages ++ [p]) query = next_query p (query_after pages query).
Proof. unfold query_after. by rewrite foldl_app. Qed.

(** A run over pages that announce more and a last one that does not, for
    a pointer that holds a map: the result, and the requests sent, the
    [k]-th one built from the URL with the query as the first [k] pages
    left it. *)
Lemma history_loop_pages U pages last :
  ∀ fuel values responses w,
    AlwaysSigns (config (client_Token (client w))) →
    (∀ k, (k ≤ length pages)%nat →
       ∃ req, http_NewRequest http_MethodGet
                (U +:+ "?" +:+ Values_Encode (query_after (take k pages) values)) None
              = Ok req) →
    (∀ i p, pages !! i = Some p →
       Serves (client_httpCli (client w)) (length (requests (trace w)) + i) p ∧
       HasMore p = true) →
    Serves (client_httpCli (client w)) (length (requests (trace w)) + length pages) last →
    HasMore last = false →
    (length pages < fuel)%nat →
    ∃ w' sent,
      GetTransactionHistory_loop fuel U (Some values) responses w
      = (Returned (Some (range responses ++ pages ++ [last]), None), w') ∧
      requests (trace w') = requests (trace w) ++ sent ∧
      Forall2 (fun req url => BuiltFrom http_MethodGet url None req) sent
        ((fun k => U +:+ "?" +:+ Values_Encode (query_after (take k pages) values))
           <$> seq 0 (S (length pages))).
Proof.
  induction pages as [|p pages IH]; intros fuel values responses w Hsign Hbuild
    Hpages Hlast Hstop Hfuel; (destruct fuel as [|fuel]; [cbn in Hfuel; lia|]);
    destruct (token_ready w Hsign) as (authToken & w1 & HG);
    destruct (Hbuild O ltac:(lia)) as [req0 Hreq0]; cbn in Hreq0.
  - cbn in Hlast. rewrite Nat.add_0_r in Hlast.
    pose proof (history_step fuel U (Some values) responses w last authToken w1 req0
                  HG Hreq0 Hlast) as Hstep.
    rewrite Hstop in Hstep.
    pose proof (GenerateIfExpired_frame w) as (_ & _ & _ & _ & Hreq).
    rewrite HG in Hreq. cbn in Hreq.
    exists (after_request w1 (authorize authToken req0)), [authorize authToken req0].
    split; [rewrite Hstep; by destruct responses|].
    split; [by rewrite requests_after_request, Hreq|].
    constructor; [|constructor]. by exists authToken, req0.
  - destruct (Hpages O p eq_refl) as [Hserve Hmore].
    rewrite Nat.add_0_r in Hserve.
    rewrite (history_step_map fuel U values responses w p authToken w1 req0
               HG Hreq0 Hserve Hmore).
    destruct (step_world_frame w w1 authToken req0 HG) as (Hcli & Hcfg & Hreq2).
    set (w2 := snd (time_Sleep 10 (after_request w1 (authorize authToken req0)))) in *.
    edestruct (IH fuel (next_query p values) (append responses p) w2)
      as (w' & sent & Hrun & Hsent & Hurls).
    + by rewrite Hcfg.
    + intros k Hk. apply (Hbuild (S k)). cbn. lia.
    + intros i q Hq. rewrite Hcli, Hreq2, length_app. cbn.
      replace (length (requests (trace w)) + 1 + i)%nat
        with (length (requests (trace w)) + S i)%nat by lia.
      by apply Hpages.
    + rewrite Hcli, Hreq2, length_app. cbn.
      replace (length (requests (trace w)) + 1 + length pages)%nat
        with (length (requests (trace w)) + length (p :: pages))%nat by (cbn; lia).
      exact Hlast.
    + exact Hstop.
    + cbn in Hfuel. lia.
    + exists w', (authorize authToken req0 :: sent). split; [|split].
      * rewrite Hrun. destruct responses; cbn; [by rewrite <- app_assoc|done].
      * rewrite Hsent, Hreq2, <- app_assoc. reflexivity.
      * change (length (p :: pages)) with (S (length pages)).
        change (seq 0 (S (S (length pages)))) with (0%nat :: seq 1 (S (length pages))).
        rewrite fmap_cons, <- (fmap_S_seq 0), <- list_fmap_compose.
        constructor; [by exists authToken, req0|exact Hurls].
Qed.

(** X4: take a query pointer that is nil or holds a map, a key that
    signs, pages that announce more followed by one that does not, and
    fuel for them; let [http.NewRequest] accept the URLs of the run.  Then
    [GetTransactionHistory] returns the pages in order, and its [k]-th
    request is the one [http.NewRequest] builds from the history URL, the
    transaction identifier spliced in as it is, with the query as the
    first [k] pages left it: a page replaces "revision" by its own when
    that is not empty and changes nothing otherwise, and no page touches
    another key of the caller's query. *)
Theorem GetTransactionHistory_request_urls originalTransactionId query values w
    pages last fuel :
  let U := host w +:+ "/inApps/v1/history/" +:+ originalTransactionId in
  query_map query = Some values →
  AlwaysSigns (config (client_Token (client w))) →
  (∀ k, (k ≤ length pages)%nat →
     ∃ req, http_NewRequest http_MethodGet
              (U +:+ "?" +:+ Values_Encode (query_after (take k pages) values)) None
            = Ok req) →
  (∀ i p, pages !! i = Some p →
     Serves (client_httpCli (client w)) (length (requests (trace w)) + i) p ∧
     HasMore p = true) →
  Serves (client_httpCli (client w)) (length (requests (trace w)) + length pages) last →
  HasMore last = false →
  (length pages < fuel)%nat →
  fst (GetTransactionHistory fuel originalTransactionId query w)
  = Returned (Some (pages ++ [last]), None) ∧
  (∃ sent,
      requests (trace (snd (GetTransactionHistory fuel originalTransactionId query w)))
      = requests (trace w) ++ sent ∧
      Forall2 (fun req url => BuiltFrom http_MethodGet url None req) sent
        ((fun k => U +:+ "?" +:+ Values_Encode (query_after (take k pages) values))
           <$> seq 0 (S (length pages)))) ∧
  (∀ k key, key ≠ "revision" →
     query_after (take k pages) values !! key = values !! key) ∧
  (∀ k p, pages !! k = Some p →
     query_after (take (S k) pages) values
     = if String.eqb (Revision p) ""
       then query_after (take k pages) values
       else <["revision" := [Revision p]]> (query_after (take k pages) values)).
Proof.
  intros U Hquery Hsign Hbuild Hpages Hlast Hstop Hfuel.
  rewrite GetTransactionHistory_unfold, Hquery. fold U.
  destruct (history_loop_pages U pages last fuel values None w
              Hsign Hbuild Hpages Hlast Hstop Hfuel) as (w' & sent & Hrun & Hsent & Hurls).
  rewrite Hrun. cbn [fst snd].
  split; [reflexivity|]. split; [by exists sent|]. split.
  - intros k key Hkey. by apply query_after_other.
  - intros k p Hp. destruct (Hpages k p Hp) as [_ Hmore].
    rewrite (take_S_r _ _ _ Hp), query_after_snoc.
    unfold next_query, Values_Set. rewrite Hmore. cbn.
    by destruct (String.eqb (Revision p) "").
Qed.

(** A transport whose pages all announce more, for a pointer that holds
    a map. *)
Lemma history_loop_endless U fuel :
  ∀ (page : nat → HistoryResponse) values responses w,
    AlwaysSigns (config (client_Token (client w))) →
    (∀ k, ∃ req, http_NewRequest http_MethodGet
                   (U +:+ "?" +:+ Values_Encode (query_after (page <$> seq 0 k) values))
                   None
                 = Ok req) →
    (∀ k, Serves (client_httpCli (client w)) (length (requests (trace w)) + k) (page k) ∧
          HasMore (page k) = true) →
    ∃ w',
      GetTransactionHistory_loop fuel U (Some values) responses w = (OutOfFuel, w') ∧
      length (requests (trace w')) = (length (requests (trace w)) + fuel)%nat.
Proof.
  induction fuel as [|fuel IH]; intros page values responses w Hsign Hbuild Hmore.
  - exists w. split; [reflexivity|lia].
  - destruct (token_ready w Hsign) as (authToken & w1 & HG).
    destruct (Hbuild O) as [req0 Hreq0]. cbn in Hreq0.
    destruct (Hmore O) as [Hserve Hrsp]. rewrite Nat.add_0_r in Hserve.
    rewrite (history_step_map fuel U values responses w (page O) authToken w1 req0
               HG Hreq0 Hserve Hrsp).
    destruct (step_world_frame w w1 authToken req0 HG) as (Hcli & Hcfg & Hreq2).
    set (w2 := snd (time_Sleep 10 (after_request w1 (authorize authToken req0)))) in *.
    edestruct (IH (fun k => page (S k)) (next_query (page O) values)
                 (append responses (page O)) w2) as (w' & Hrun & Hlen).
    + by rewrite Hcfg.
    + intros k. destruct (Hbuild (S k)) as [req Hreq].
      exists req. rewrite <- Hreq.
      change (seq 0 (S k)) with (0%nat :: seq 1 k).
      by rewrite fmap_cons, <- (fmap_S_seq 0), <- list_fmap_compose.
    + intros k. rewrite Hcli, Hreq2, length_app. cbn.
      replace (length (requests (trace w)) + 1 + k)%nat
        with (length (requests (trace w)) + S k)%nat by lia.
      apply Hmore.
    + exists w'. split; [exact Hrun|].
      rewrite Hlen, Hreq2, length_app. cbn. lia.
Qed.

(** A transport whose pages all announce more and carry no revision, for
    any pointer: every request is built from the same URL. *)
Lemma history_loop_endless_same U fuel :
  ∀ query responses w req0,
    AlwaysSigns (config (client_Token (client w))) →
    http_NewRequest http_MethodGet (U +:+ "?" +:+ Values_Encode (default ∅ query)) None
    = Ok req0 →
    (∀ k, ∃ rsp, Serves (client_httpCli (client w)) k rsp ∧
                 HasMore rsp = true ∧ Revision rsp = "") →
    ∃ w' sent,
      GetTransactionHistory_loop fuel U query responses w = (OutOfFuel, w') ∧
      requests (trace w') = requests (trace w) ++ sent ∧
      length sent = fuel ∧
      Forall (BuiltFrom http_MethodGet
                (U +:+ "?" +:+ Values_Encode (default ∅ query)) None) sent.
Proof.
  induction fuel as [|fuel IH]; intros query responses w req0 Hsign Hreq0 Hmore.
  - exists w, []. rewrite app_nil_r. by repeat split.
  - destruct (token_ready w Hsign) as (authToken & w1 & HG).
    destruct (Hmore (length (requests (trace w)))) as (rsp & Hserve & Hrsp & Hrev).
    rewrite (history_step fuel U query responses w rsp authToken w1 req0
               HG Hreq0 Hserve), Hrsp, Hrev.
    cbn [String.eqb negb].
    destruct (step_world_frame w w1 authToken req0 HG) as (Hcli & Hcfg & Hreq2).
    set (w2 := snd (time_Sleep 10 (after_request w1 (authorize authToken req0)))) in *.
    edestruct (IH query (append responses rsp) w2 req0) as (w' & sent & Hrun & Hsent & Hlen & Hall).
    + by rewrite Hcfg.
    + exact Hreq0.
    + by rewrite Hcli.
    + exists w', (authorize authToken req0 :: sent). split; [exact Hrun|]. split; [|split].
      * rewrite Hsent, Hreq2, <- app_assoc. reflexivity.
      * cbn. by rewrite Hlen.
      * constructor; [by exists authToken, req0|exact Hall].
Qed.

(** X15: with a key that signs, [GetTransactionHistory] never returns
    while every page announces more.  For a query pointer that is nil or
    holds a map this holds when [http.NewRequest] accepts the URLs of the
    run; for any pointer, the nil map included, it holds when no page
    carries a revision and [http.NewRequest] accepts the one URL, and then
    every request is built from that same URL.  Whatever the fuel, all of
    it is spent, one request per iteration. *)
Theorem GetTransactionHistory_endless originalTransactionId query w :
  let U := host w +:+ "/inApps/v1/history/" +:+ originalTransactionId in
  AlwaysSigns (config (client_Token (client w))) →
  (∀ (page : nat → HistoryResponse) values,
      query_map query = Some values →
      (∀ k, ∃ req, http_NewRequest http_MethodGet
                     (U +:+ "?" +:+ Values_Encode (query_after (page <$> seq 0 k) values))
                     None
                   = Ok req) →
      (∀ k, Serves (client_httpCli (client w)) (length (requests (trace w)) + k) (page k) ∧
            HasMore (page k) = true) →
      ∀ fuel,
        fst (GetTransactionHistory fuel originalTransactionId query w) = OutOfFuel ∧
        length (requests (trace (snd (GetTransactionHistory fuel originalTransactionId query w))))
        = (length (requests (trace w)) + fuel)%nat) ∧
  (∀ req0,
      http_NewRequest http_MethodGet
        (U +:+ "?" +:+ Values_Encode (default ∅ (query_map query))) None = Ok req0 →
      (∀ k, ∃ rsp, Serves (client_httpCli (client w)) k rsp ∧
                   HasMore rsp = true ∧ Revision rsp = "") →
      ∀ fuel,
        fst (GetTransactionHistory fuel originalTransactionId query w) = OutOfFuel ∧
        ∃ sent,
          requests (trace (snd (GetTransactionHistory fuel originalTransactionId query w)))
          = requests (trace w) ++ sent ∧
          length sent = fuel ∧
          Forall (BuiltFrom http_MethodGet
                    (U +:+ "?" +:+ Values_Encode (default ∅ (query_map query))) None) sent).
Proof.
  intros U Hsign. split.
  - intros page values Hquery Hbuild Hmore fuel.
    rewrite GetTransactionHistory_unfold, Hquery. fold U.
    destruct (history_loop_endless U fuel page values None w Hsign Hbuild Hmore)
      as (w' & Hrun & Hlen).
    rewrite Hrun. by split.
  - intros req0 Hreq0 Hmore fuel.
    rewrite GetTransactionHistory_unfold. fold U.
    destruct (history_loop_endless_same U fuel (query_map query) None w req0
                Hsign Hreq0 Hmore) as (w' & sent & Hrun & Hsent & Hlen & Hall).
    rewrite Hrun. split; [reflexivity|]. by exists sent.
Qed.

End HistoryFacts.

(** * The other endpoints *)

Section EndpointFacts.
Context `{Collaborators} `{Endpoints}.








End EndpointFacts.

(** * Refund history *)

Section RefundFacts.
Context `{Collaborators} `{Endpoints}.

(** One iteration of [GetRefundHistory] over a page, stated on the calls
    it makes. *)
Lemma refund_step fuel baseURL U responses w rsp authToken w1 req0 :
  GenerateIfExpired w = ((authToken, None), w1) →
  http_NewRequest http_MethodGet U None = Ok req0 →
  ServesRefund (client_httpCli (client w)) (length (requests (trace w))) rsp →
  GetRefundHistory_loop (S fuel) baseURL U responses w =
    if Refund_HasMore rsp
    then GetRefundHistory_loop fuel baseURL (next_refund_URL baseURL rsp U)
           (append responses rsp)
           (snd (time_Sleep 10 (after_request w1 (authorize authToken req0))))
    else (Returned (append responses rsp, None),
          after_request w1 (authorize authToken req0)).
Proof.
  intros HG Hreq0 Hserve.
  pose proof (GenerateIfExpired_frame w) as (Hcli & _ & _ & _ & Hreq).
  rewrite HG in Hcli, Hreq. cbn in Hcli, Hreq.
  cbn [GetRefundHistory_loop]. unfold mbind at 1, M_bind at 1.
  rewrite Do_run, HG, Hreq0, Hcli, Hreq.
  destruct (Hserve (authorize authToken req0)) as (b & Hrt & Hjs).
  rewrite Hrt. cbn. rewrite Hjs. unfold next_refund_URL, Values_Set.
  destruct (Refund_HasMore rsp); reflexivity.
Qed.

Lemma refund_URL_after_snoc baseURL pages p U :
  refund_URL_after baseURL (pages ++ [p]) U
  = next_refund_URL baseURL p (refund_URL_after baseURL pages U).
Proof. unfold refund_URL_after. by rewrite foldl_app. Qed.

Lemma refund_loop_pages baseURL pages last :
  ∀ fuel U responses w,
    AlwaysSigns (config (client_Token (client w))) →
    (∀ k, (k ≤ length pages)%nat →
       ∃ req, http_NewRequest http_MethodGet
                (refund_URL_after baseURL (take k pages) U) None = Ok req) →
    (∀ i p, pages !! i = Some p →
       ServesRefund (client_httpCli (client w)) (length (requests (trace w)) + i) p ∧
       Refund_HasMore p = true) →
    ServesRefund (client_httpCli (client w))
      (length (requests (trace w)) + length pages) last →
    Refund_HasMore last = false →
    (length pages < fuel)%nat →
    ∃ w' sent,
      GetRefundHistory_loop fuel baseURL U responses w
      = (Returned (Some (range responses ++ pages ++ [last]), None), w') ∧
      requests (trace w') = requests (trace w) ++ sent ∧
      Forall2 (fun req url => BuiltFrom http_MethodGet url None req) sent
        ((fun k => refund_URL_after baseURL (take k pages) U)
           <$> seq 0 (S (length pages))).
Proof.
  induction pages as [|p pages IH]; intros fuel U responses w Hsign Hbuild
    Hpages Hlast Hstop Hfuel; (destruct fuel as [|fuel]; [cbn in Hfuel; lia|]);
    destruct (token_ready w Hsign) as (authToken & w1 & HG);
    destruct (Hbuild O ltac:(lia)) as [req0 Hreq0]; cbn in Hreq0.
  - cbn in Hlast. rewrite Nat.add_0_r in Hlast.
    pose proof (refund_step fuel baseURL U responses w last authToken w1 req0
                  HG Hreq0 Hlast) as Hstep.
    rewrite Hstop in Hstep.
    pose proof (GenerateIfExpired_frame w) as (_ & _ & _ & _ & Hreq).
    rewrite HG in Hreq. cbn in Hreq.
    exists (after_request w1 (authorize authToken req0)), [authorize authToken req0].
    split; [rewrite Hstep; by destruct responses|].
    split; [by rewrite requests_after_request, Hreq|].
    constructor; [|constructor]. by exists authToken, req0.
  - destruct (Hpages O p eq_refl) as [Hserve Hmore].
    rewrite Nat.add_0_r in Hserve.
    pose proof (refund_step fuel baseURL U responses w p authToken w1 req0
                  HG Hreq0 Hserve) as Hstep.
    rewrite Hmore in Hstep. rewrite Hstep.
    destruct (step_world_frame w w1 authToken req0 HG) as (Hcli & Hcfg & Hreq2).
    set (w2 := snd (time_Sleep 10 (after_request w1 (authorize authToken req0)))) in *.
    edestruct (IH fuel (next_refund_URL baseURL p U) (append responses p) w2)
      as (w' & sent & Hrun & Hsent & Hurls).
    + by rewrite Hcfg.
    + intros k Hk. apply (Hbuild (S k)). cbn. lia.
    + intros i q Hq. rewrite Hcli, Hreq2, length_app. cbn.
      replace (length (requests (trace w)) + 1 + i)%nat
        with (length (requests (trace w)) + S i)%nat by lia.
      by apply Hpages.
    + rewrite Hcli, Hreq2, length_app. cbn.
      replace (length (requests (trace w)) + 1 + length pages)%nat
        with (length (requests (trace w)) + length (p :: pages))%nat by (cbn; lia).
      exact Hlast.
    + exact Hstop.
    + cbn in Hfuel. lia.
    + exists w', (authorize authToken req0 :: sent). split; [|split].
      * rewrite Hrun. destruct responses; cbn; [by rewrite <- app_assoc|done].
      * rewrite Hsent, Hreq2, <- app_assoc. reflexivity.
      * change (length (p :: pages)) with (S (length pages)).
        change (seq 0 (S (S (length pages)))) with (0%nat :: seq 1 (S (length pages))).
        rewrite fmap_cons, <- (fmap_S_seq 0), <- list_fmap_compose.
        constructor; [by exists authToken, req0|exact Hurls].
Qed.

Lemma refund_loop_endless baseURL fuel :
  ∀ (page : nat → RefundLookupResponse) U responses w,
    AlwaysSigns (config (client_Token (client w))) →
    (∀ k, ∃ req, http_NewRequest http_MethodGet
                   (refund_URL_after baseURL (page <$> seq 0 k) U) None = Ok req) →
    (∀ k, ServesRefund (client_httpCli (client w))
            (length (requests (trace w)) + k) (page k) ∧
          Refund_HasMore (page k) = true) →
    ∃ w',
      GetRefundHistory_loop fuel baseURL U responses w = (OutOfFuel, w') ∧
      length (requests (trace w')) = (length (requests (trace w)) + fuel)%nat.
Proof.
  induction fuel as [|fuel IH]; intros page U responses w Hsign Hbuild Hmore.
  - exists w. split; [reflexivity|lia].
  - destruct (token_ready w Hsign) as (authToken & w1 & HG).
    destruct (Hbuild O) as [req0 Hreq0]. cbn in Hreq0.
    destruct (Hmore O) as [Hserve Hrsp]. rewrite Nat.add_0_r in Hserve.
    pose proof (refund_step fuel baseURL U responses w (page O) authToken w1 req0
                  HG Hreq0 Hserve) as Hstep.
    rewrite Hrsp in Hstep. rewrite Hstep.
    destruct (step_world_frame w w1 authToken req0 HG) as (Hcli & Hcfg & Hreq2).
    set (w2 := snd (time_Sleep 10 (after_request w1 (authorize authToken req0)))) in *.
    edestruct (IH (fun k => page (S k)) (next_refund_URL baseURL (page O) U)
                 (append responses (page O)) w2) as (w' & Hrun & Hlen).
    + by rewrite Hcfg.
    + intros k. destruct (Hbuild (S k)) as [req Hreq].
      exists req. rewrite <- Hreq.
      change (seq 0 (S k)) with (0%nat :: seq 1 k).
      by rewrite fmap_cons, <- (fmap_S_seq 0), <- list_fmap_compose.
    + intros k. rewrite Hcli, Hreq2, length_app. cbn.
      replace (length (requests (trace w)) + 1 + k)%nat
        with (length (requests (trace w)) + S k)%nat by lia.
      apply Hmore.
    + exists w'. split; [exact Hrun|].
      rewrite Hlen, Hreq2, length_app. cbn. lia.
Qed.

Lemma GetRefundHistory_unfold fuel originalTransactionId w :
  GetRefundHistory fuel originalTransactionId w
  = GetRefundHistory_loop fuel
      (host w +:+ "/inApps/v2/refund/lookup/" +:+ originalTransactionId)
      (host w +:+ "/inApps/v2/refund/lookup/" +:+ originalTransactionId) None w.
Proof.
  unfold GetRefundHistory. run_M.
  change (strings_Replace _ _ _) with
    (strings_Replace
       (if Sandbox (config (client_Token (client w)))
        then HostSandBox +:+ PathRefundHistory
        else HostProduction +:+ PathRefundHistory)
       "{originalTransactionId}" originalTransactionId).
  by rewrite refundURL_eq.
Qed.

(** X10: take a key that signs, refund pages that announce more followed
    by one that does not, and fuel for them; let [http.NewRequest] accept
    the URLs of the run.  Then [GetRefundHistory] returns the pages in
    order, and its [k]-th request is the one [http.NewRequest] builds from
    the URL the first [k] pages led to.  The first URL is the refund URL
    of the transaction, the identifier spliced in as it is and no query; a
    page with a revision leads to that URL with the revision as the only
    parameter, a page without one to the URL of the request before. *)
Theorem GetRefundHistory_pages originalTransactionId w pages last fuel :
  let baseURL := host w +:+ "/inApps/v2/refund/lookup/" +:+ originalTransactionId in
  AlwaysSigns (config (client_Token (client w))) →
  (∀ k, (k ≤ length pages)%nat →
     ∃ req, http_NewRequest http_MethodGet
              (refund_URL_after baseURL (take k pages) baseURL) None = Ok req) →
  (∀ i p, pages !! i = Some p →
     ServesRefund (client_httpCli (client w)) (length (requests (trace w)) + i) p ∧
     Refund_HasMore p = true) →
  ServesRefund (client_httpCli (client w))
    (length (requests (trace w)) + length pages) last →
  Refund_HasMore last = false →
  (length pages < fuel)%nat →
  fst (GetRefundHistory fuel originalTransactionId w)
  = Returned (Some (pages ++ [last]), None) ∧
  (∃ sent,
      requests (trace (snd (GetRefundHistory fuel originalTransactionId w)))
      = requests (trace w) ++ sent ∧
      Forall2 (fun req url => BuiltFrom http_MethodGet url None req) sent
        ((fun k => refund_URL_after baseURL (take k pages) baseURL)
           <$> seq 0 (S (length pages)))) ∧
  refund_URL_after baseURL (take 0 pages) baseURL = baseURL ∧
  (∀ k p, pages !! k = Some p →
     refund_URL_after baseURL (take (S k) pages) baseURL
     = if String.eqb (Refund_Revision p) ""
       then refund_URL_after baseURL (take k pages) baseURL
       else baseURL +:+ "?" +:+
            Values_Encode (<["revision" := [Refund_Revision p]]> ∅)).
Proof.
  intros baseURL Hsign Hbuild Hpages Hlast Hstop Hfuel.
  rewrite GetRefundHistory_unfold. fold baseURL.
  destruct (refund_loop_pages baseURL pages last fuel baseURL None w
              Hsign Hbuild Hpages Hlast Hstop Hfuel)
    as (w' & sent & Hrun & Hsent & Hurls).
  rewrite Hrun. cbn [fst snd].
  split; [reflexivity|]. split; [by exists sent|]. split; [reflexivity|].
  intros k p Hp. destruct (Hpages k p Hp) as [_ Hmore].
  rewrite (take_S_r _ _ _ Hp), refund_URL_after_snoc.
  unfold next_refund_URL, Values_Set. rewrite Hmore. cbn.
  by destruct (String.eqb (Refund_Revision p) "").
Qed.

(** X11: with a key that signs, a transport whose every answer is a
    refund page that announces more, and [http.NewRequest] accepting the
    URLs of the run, [GetRefundHistory] never returns: whatever the fuel,
    all of it is spent, one request per iteration. *)
Theorem GetRefundHistory_endless originalTransactionId w
    (page : nat → RefundLookupResponse) :
  let baseURL := host w +:+ "/inApps/v2/refund/lookup/" +:+ originalTransactionId in
  AlwaysSigns (config (client_Token (client w))) →
  (∀ k, ∃ req, http_NewRequest http_MethodGet
                 (refund_URL_after baseURL (page <$> seq 0 k) baseURL) None = Ok req) →
  (∀ k, ServesRefund (client_httpCli (client w))
          (length (requests (trace w)) + k) (page k) ∧
        Refund_HasMore (page k) = true) →
  ∀ fuel,
    fst (GetRefundHistory fuel originalTransactionId w) = OutOfFuel ∧
    length (requests (trace (snd (GetRefundHistory fuel originalTransactionId w))))
    = (length (requests (trace w)) + fuel)%nat.
Proof.
  intros baseURL Hsign Hbuild Hmore fuel.
  rewrite GetRefundHistory_unfold. fold baseURL.
  destruct (refund_loop_endless baseURL fuel page baseURL None w Hsign Hbuild Hmore)
    as (w' & Hrun & Hlen).
  rewrite Hrun. by split.
Qed.



End RefundFacts.
(** * What every operation keeps *)

Section Invariants.
Context `{Collaborators} `{Endpoints}.

Lemma Do_authenticated method url body w :
  Forall Authenticated (requests (trace w)) →
  Forall Authenticated (requests (trace (snd (Do method url body w)))).
Proof.
  intros HA.
  destruct (Do_frame method url body w) as (_ & _ & _ & _ & sent & -> & _ & Hsent).
  by apply Forall_app.
Qed.

Ltac by_Do HA :=
  match goal with
  | |- context [Do ?m ?u ?b ?w] =>
    let H1 := fresh "H1" in
    pose proof (Do_authenticated m u b w HA) as H1;
    destruct (Do m u b w) as [[[? ?] ?] ?]; cbn in H1 |- *
  end;
  repeat (match goal with
          | |- context [match ?x with _ => _ end] => destruct x; cbn
          end);
  try assumption.

Lemma GetTransactionHistory_loop_authenticated fuel :
  ∀ U query responses w,
    Forall Authenticated (requests (trace w)) →
    Forall Authenticated
      (requests (trace (snd (GetTransactionHistory_loop fuel U query responses w)))).
Proof.
  induction fuel as [|fuel IH]; intros U query responses w HA; [exact HA|].
  cbn [GetTransactionHistory_loop]. run_M.
  pose proof (Do_authenticated http_MethodGet
                (U +:+ "?" +:+ Values_Encode (default ∅ query)) None w HA) as H1.
  destruct (Do _ _ _ w) as [[[statusCode body] [err|]] w1]; cbn in H1 |- *;
    [exact H1|].
  destruct (negb (statusCode =? http_StatusOK)); [exact H1|].
  destruct (json_Unmarshal _ _) as [rsp [err|]]; [exact H1|].
  destruct (negb (HasMore rsp)); [exact H1|].
  destruct (HasMore rsp && negb (String.eqb (Revision rsp) ""));
    [destruct query; [|exact H1]|]; apply IH; exact H1.
Qed.

Lemma GetRefundHistory_loop_authenticated fuel :
  ∀ baseURL U responses w,
    Forall Authenticated (requests (trace w)) →
    Forall Authenticated
      (requests (trace (snd (GetRefundHistory_loop fuel baseURL U responses w)))).
Proof.
  induction fuel as [|fuel IH]; intros baseURL U responses w HA; [exact HA|].
  cbn [GetRefundHistory_loop]. run_M.
  pose proof (Do_authenticated http_MethodGet U None w HA) as H1.
  destruct (Do _ _ _ w) as [[[statusCode body] [err|]] w1]; cbn in H1 |- *;
    [exact H1|].
  destruct (negb (statusCode =? http_StatusOK)); [exact H1|].
  destruct (json_Unmarshal_RefundLookupResponse _ _) as [rsp [err|]]; [exact H1|].
  destruct (negb (Refund_HasMore rsp)); [exact H1|].
  apply IH. exact H1.
Qed.

(** X12: no operation of the client sends a request without a bearer
    token.  If every request sent so far carries ["Bearer "] and a token
    under Authorization, the same holds after each endpoint call, however
    it ends and however long the paginated ones run, and after a batch of
    signed payloads was parsed. *)
Theorem requests_stay_authenticated w :
  Forall Authenticated (requests (trace w)) →
  (∀ method url body,
      Forall Authenticated (requests (trace (snd (Do method url body w))))) ∧
  (∀ originalTransactionId,
      Forall Authenticated
        (requests (trace (snd (GetALLSubscriptionStatuses originalTransactionId w))))) ∧
  (∀ orderId,
      Forall Authenticated (requests (trace (snd (LookupOrderID orderId w))))) ∧
  (∀ fuel originalTransactionId query,
      Forall Authenticated
        (requests (trace (snd (GetTransactionHistory fuel originalTransactionId query w))))) ∧
  (∀ fuel originalTransactionId,
      Forall Authenticated
        (requests (trace (snd (GetRefundHistory fuel originalTransactionId w))))) ∧
  (∀ originalTransactionId body,
      Forall Authenticated
        (requests (trace (snd (SendConsumptionInfo originalTransactionId body w))))) ∧
  (∀ originalTransactionId body,
      Forall Authenticated
        (requests (trace (snd (ExtendSubscriptionRenewalDate originalTransactionId body w))))) ∧
  Forall Authenticated (requests (trace (snd (SendRequestTestNotification w)))) ∧
  (∀ testNotificationToken,
      Forall Authenticated
        (requests (trace (snd (GetTestNotificationStatus testNotificationToken w))))) ∧
  (∀ transactions,
      Forall Authenticated
        (requests (trace (snd (ParseSignedTransactions transactions w))))).
Proof.
  intros HA. repeat split.
  - intros. by apply Do_authenticated.
  - intros. unfold GetALLSubscriptionStatuses. run_M. by_Do HA.
  - intros. unfold LookupOrderID. run_M. by_Do HA.
  - intros. rewrite GetTransactionHistory_unfold.
    by apply GetTransactionHistory_loop_authenticated.
  - intros. unfold GetRefundHistory. run_M.
    by apply GetRefundHistory_loop_authenticated.
  - intros. unfold SendConsumptionInfo. run_M.
    destruct (json_Encode_ConsumptionRequestBody body); [|exact HA]. by_Do HA.
  - intros. unfold ExtendSubscriptionRenewalDate. run_M.
    destruct (json_Encode_ExtendRenewalDateRequest body); [|exact HA]. by_Do HA.
  - unfold SendRequestTestNotification. run_M. by apply Do_authenticated.
  - intros. unfold GetTestNotificationStatus. run_M. by apply Do_authenticated.
  - intros. by rewrite ParseSignedTransactions_spec.
Qed.

(** X13: [parseSignedTransaction] checks the root entry first, then the
    intermediate, then the leaf, and stops at the first failure; an entry
    that cannot be extracted gives the extractor's error, an entry that
    does not parse gives the fixed message of its role, whatever error the
    X.509 parser reported. *)
Theorem parseSignedTransaction_error_precedence transaction w :
  (∀ err,
      extractCertByIndex (client_cert (client w)) transaction 2 = Err err →
      fst (parseSignedTransaction transaction w) = (None, Some err)) ∧
  (∀ rootCertBytes e,
      extractCertByIndex (client_cert (client w)) transaction 2 = Ok rootCertBytes →
      x509_ParseCertificate rootCertBytes = Err e →
      fst (parseSignedTransaction transaction w)
      = (None, Some (fmt_Errorf "appstore failed to parse root certificate"))) ∧
  (∀ rootCertBytes rootCert,
      extractCertByIndex (client_cert (client w)) transaction 2 = Ok rootCertBytes →
      x509_ParseCertificate rootCertBytes = Ok rootCert →
      (∀ err,
          extractCertByIndex (client_cert (client w)) transaction 1 = Err err →
          fst (parseSignedTransaction transaction w) = (None, Some err)) ∧
      (∀ intermediaCertBytes e,
          extractCertByIndex (client_cert (client w)) transaction 1 = Ok intermediaCertBytes →
          x509_ParseCertificate intermediaCertBytes = Err e →
          fst (parseSignedTransaction transaction w)
          = (None, Some (fmt_Errorf "appstore failed to parse intermediate certificate"))) ∧
      (∀ intermediaCertBytes intermediaCert,
          extractCertByIndex (client_cert (client w)) transaction 1 = Ok intermediaCertBytes →
          x509_ParseCertificate intermediaCertBytes = Ok intermediaCert →
          (∀ err,
              extractCertByIndex (client_cert (client w)) transaction 0 = Err err →
              fst (parseSignedTransaction transaction w) = (None, Some err)) ∧
          (∀ leafCertBytes e,
              extractCertByIndex (client_cert (client w)) transaction 0 = Ok leafCertBytes →
              x509_ParseCertificate leafCertBytes = Err e →
              fst (parseSignedTransaction transaction w)
              = (None, Some (fmt_Errorf "appstore failed to parse leaf certificate"))))).
Proof.
  unfold parseSignedTransaction. run_M.
  split; [by intros err ->|]. split; [by intros rb e -> ->|].
  intros rb rootCert -> ->.
  split; [by intros err ->|]. split; [by intros ib e -> ->|].
  intros ib intermediaCert -> ->.
  split; [by intros err ->|]. by intros lb e -> ->.
Qed.

End Invariants.

(** * Concrete runs of the other endpoints *)

Module MoreRuns.
Import Demo DemoEndpoints.

Lemma demo_signs : AlwaysSigns storeConfig.
Proof. intros h c. eexists. reflexivity. Defined.

(** The pages of [threePages]. *)
Lemma demo_two_pages :
  ∀ i p,
    [ {| more := true; rev := "r1" |}; {| more := true; rev := "" |} ] !! i = Some p →
    Serves threePages (0 + i) p ∧ HasMore p = true.
Proof.
  intros [|[|i]] p Hp; inversion Hp; subst; clear Hp.
  - split; [|reflexivity]. intros req. exists [Byte.x01]. by split.
  - split; [|reflexivity]. intros req. exists [Byte.x02]. by split.
Defined.

(** C10 at a client whose first page announces more with revision r1: with
    the nil map behind the pointer the run panics after one request, with
    the nil pointer it returns the three pages. *)
Lemma GetTransactionHistory_nil_map_panics_run :
  fst (GetTransactionHistory 5 "123" (Some None) w0)
  = Panicked "assignment to entry in nil map" ∧
  length (requests (trace (snd (GetTransactionHistory 5 "123" (Some None) w0)))) = 1%nat ∧
  fst (GetTransactionHistory 5 "123" None w0)
  = Returned (Some [ {| more := true; rev := "r1" |};
                     {| more := true; rev := "" |};
                     {| more := false; rev := "" |} ], None).
Proof.
  destruct (@GetTransactionHistory_nil_map_panics collaborators 4 "123" w0
              {| more := true; rev := "r1" |} "2200000" (snd (GenerateIfExpired w0))
              {| Method := "GET";
                 URL := "https://api.storekit.itunes.apple.com/inApps/v1/history/123?";
                 Header := ∅; Body := None |})
    as [Hpanic Hgo].
  - vm_compute. reflexivity.
  - reflexivity.
  - intros req. exists [Byte.x01]. by split.
  - reflexivity.
  - discriminate.
  - rewrite Hpanic, Hgo. split; [reflexivity|]. split; vm_compute; reflexivity.
Defined.



(** X4 at two pages that announce more and a last one, with the nil
    pointer for the query. *)
Lemma GetTransactionHistory_request_urls_run :
  fst (GetTransactionHistory 5 "123" None w0)
  = Returned (Some [ {| more := true; rev := "r1" |};
                     {| more := true; rev := "" |};
                     {| more := false; rev := "" |} ], None) ∧
  ∃ sent,
    requests (trace (snd (GetTransactionHistory 5 "123" None w0))) = [] ++ sent ∧
    Forall2 (fun req url => BuiltFrom "GET" url None req) sent
      [ "https://api.storekit.itunes.apple.com/inApps/v1/history/123?";
        "https://api.storekit.itunes.apple.com/inApps/v1/history/123?revision=r1";
        "https://api.storekit.itunes.apple.com/inApps/v1/history/123?revision=r1" ].
Proof.
  destruct (@GetTransactionHistory_request_urls collaborators "123" None ∅ w0
              [ {| more := true; rev := "r1" |}; {| more := true; rev := "" |} ]
              {| more := false; rev := "" |} 5%nat) as (Hres & Hsent & _).
  - reflexivity.
  - exact demo_signs.
  - intros k Hk. eexists. reflexivity.
  - exact demo_two_pages.
  - intros req. exists [Byte.x00]. by split.
  - reflexivity.
  - cbn. lia.
  - split; [exact Hres|exact Hsent].
Defined.

(** The refund pages of [threePages]. *)
Lemma demo_refund_pages :
  ∀ i p,
    [ {| more := true; rev := "r1" |}; {| more := true; rev := "" |} ] !! i = Some p →
    ServesRefund threePages (0 + i) p ∧ Refund_HasMore p = true.
Proof.
  intros [|[|i]] p Hp; inversion Hp; subst; clear Hp.
  - split; [|reflexivity]. intros req. exists [Byte.x01]. by split.
  - split; [|reflexivity]. intros req. exists [Byte.x02]. by split.
Defined.

(** X10 at two refund pages that announce more and a last one. *)
Lemma GetRefundHistory_pages_run :
  fst (GetRefundHistory 5 "123" w0)
  = Returned (Some [ {| more := true; rev := "r1" |};
                     {| more := true; rev := "" |};
                     {| more := false; rev := "" |} ], None) ∧
  ∃ sent,
    requests (trace (snd (GetRefundHistory 5 "123" w0))) = [] ++ sent ∧
    Forall2 (fun req url => BuiltFrom "GET" url None req) sent
      [ "https://api.storekit.itunes.apple.com/inApps/v2/refund/lookup/123";
        "https://api.storekit.itunes.apple.com/inApps/v2/refund/lookup/123?revision=r1";
        "https://api.storekit.itunes.apple.com/inApps/v2/refund/lookup/123?revision=r1" ].
Proof.
  destruct (@GetRefundHistory_pages collaborators endpoints "123" w0
              [ {| more := true; rev := "r1" |}; {| more := true; rev := "" |} ]
              {| more := false; rev := "" |} 5%nat) as (Hres & Hsent & _).
  - exact demo_signs.
  - intros k Hk. eexists. reflexivity.
  - exact demo_refund_pages.
  - intros req. exists [Byte.x00]. by split.
  - reflexivity.
  - cbn. lia.
  - split; [exact Hres|exact Hsent].
Defined.

(** X11 at a transport whose refund pages all announce more, with fuel
    for seven iterations. *)
Lemma GetRefundHistory_endless_run :
  fst (GetRefundHistory 7 "123" (wCached endless 0)) = OutOfFuel ∧
  length (requests (trace (snd (GetRefundHistory 7 "123" (wCached endless 0)))))
  = 7%nat.
Proof.
  refine (@GetRefundHistory_endless collaborators endpoints "123" (wCached endless 0)
            (fun _ => {| more := true; rev := "" |}) _ _ _ 7%nat).
  - exact demo_signs.
  - intros k. eexists. reflexivity.
  - intros k. split; [|reflexivity]. intros req. exists [Byte.x02]. by split.
Defined.

(** X12 at a client that has sent nothing yet: after a history of three
    pages every request carries a bearer token. *)
Lemma requests_stay_authenticated_run :
  Forall Authenticated (requests (trace (snd (GetTransactionHistory 5 "123" None w0)))).
Proof.
  destruct (@requests_stay_authenticated collaborators endpoints w0)
    as (_ & _ & _ & Hhistory & _).
  - constructor.
  - apply Hhistory.
Defined.

(** X13 at a payload whose root entry is not a certificate. *)
Lemma parseSignedTransaction_error_precedence_run :
  fst (@parseSignedTransaction garbling "garbled-root" w0)
  = (None, Some (fmt_Errorf "appstore failed to parse root certificate")).
Proof.
  apply (proj1 (proj2 (@parseSignedTransaction_error_precedence garbling
                         "garbled-root" w0))
           [Byte.xff] (fmt_Errorf "x509: malformed certificate"));
    reflexivity.
Defined.

(** X15 at a transport whose pages all announce more and carry no
    revision, with the nil map behind the pointer and fuel for seven
    iterations. *)
Lemma GetTransactionHistory_endless_run :
  fst (GetTransactionHistory 7 "123" (Some None) (wCached endless 0)) = OutOfFuel ∧
  ∃ sent,
    requests (trace (snd (GetTransactionHistory 7 "123" (Some None) (wCached endless 0))))
    = [] ++ sent ∧
    length sent = 7%nat ∧
    Forall (BuiltFrom "GET"
              "https://api.storekit.itunes.apple.com/inApps/v1/history/123?" None) sent.
Proof.
  refine (proj2 (@GetTransactionHistory_endless collaborators "123" (Some None)
                   (wCached endless 0) _)
            {| Method := "GET";
               URL := "https://api.storekit.itunes.apple.com/inApps/v1/history/123?";
               Header := ∅; Body := None |} _ _ 7%nat).
  - exact demo_signs.
  - reflexivity.
  - intros k. exists {| more := true; rev := "" |}.
    split; [|by split]. intros req. exists [Byte.x02]. by split.
Defined.

End MoreRuns.
